(** * EZyRB, [ezyrb/parallel/ae_eddl.py]: the [AE_EDDL] reduction

    A shallow embedding of the feed-forward autoencoder wrapper.  The
    Python class only configures layers, drives the training loop and
    moves parameters between two models; every tensor operation belongs
    to the PyEDDL library.  The library is therefore kept abstract (a
    [world] with a command interpreter and a few queries, the fields of
    the class [EDDL]), while everything the Python file itself does is
    embedded as executable definitions in a small state-and-exception
    monad over the object, the world and the log of library calls. *)

From Stdlib Require Import String ZArith List Bool Lia Floats Permutation.
Import ListNotations.
Open Scope Z_scope.

(** ** Python values *)

(** The values that can sit in [stop_training]. *)
Inductive PyVal : Type :=
| PyInt (z : Z)
| PyBool (b : bool)
| PyFloat (x : float)
| PyStr (s : string)
| PyNone.

(** [isinstance(v, int)]: [bool] is a subclass of [int]. *)
Definition isinstance_int (v : PyVal) : bool :=
  match v with
  | PyInt _ | PyBool _ => true
  | _ => false
  end.

(** [isinstance(v, float)]. *)
Definition isinstance_float (v : PyVal) : bool :=
  match v with
  | PyFloat _ => true
  | _ => false
  end.

(** The exceptions the Python file itself can provoke. *)
Inductive exn : Type := IndexError | ZeroDivisionError.

(** [xs[i]] on a list or tuple, negative indices counted from the end. *)
Definition py_index {A : Type} (xs : list A) (i : Z) : exn + A :=
  let n := Z.of_nat (length xs) in
  let j := if i <? 0 then i + n else i in
  if (0 <=? j) && (j <? n)
  then match nth_error xs (Z.to_nat j) with
       | Some a => inr a
       | None => inl IndexError
       end
  else inl IndexError.

(** [xs[a:]]. *)
Definition py_slice_from {A : Type} (a : Z) (xs : list A) : list A :=
  let n := Z.of_nat (length xs) in
  let start := if a <? 0 then Z.max (n + a) 0 else Z.min a n in
  skipn (Z.to_nat start) xs.

(** [range(a, b)]. *)
Definition py_range (a b : Z) : list Z :=
  map (fun k => a + Z.of_nat k) (seq 0 (Z.to_nat (b - a))).

(** [a // b] on integers ([Z.div] rounds to the floor, as Python does). *)
Definition py_floordiv (a b : Z) : exn + Z :=
  if b =? 0 then inl ZeroDivisionError else inr (a / b).

(** ** numpy arrays of rank one and two *)

Inductive ndarray : Type :=
| Arr1 (v : list float)
| Arr2 (r c : nat) (rows : list (list float)).

Definition np_shape (a : ndarray) : list Z :=
  match a with
  | Arr1 v => [Z.of_nat (length v)]
  | Arr2 r c _ => [Z.of_nat r; Z.of_nat c]
  end.

Definition transpose_rows (c : nat) (rows : list (list float)) : list (list float) :=
  map (fun j => map (fun row => nth j row 0%float) rows) (seq 0 c).

(** [a.T]: the identity on rank one. *)
Definition np_T (a : ndarray) : ndarray :=
  match a with
  | Arr1 v => Arr1 v
  | Arr2 r c rows => Arr2 c r (transpose_rows c rows)
  end.

(** [a.ravel()]. *)
Definition np_ravel (a : ndarray) : ndarray :=
  match a with
  | Arr1 v => Arr1 v
  | Arr2 _ _ rows => Arr1 (concat rows)
  end.

(** [1 in a.shape]. *)
Definition one_in_shape (a : ndarray) : bool :=
  existsb (fun d => d =? 1) (np_shape a).

Definition is_1d (a : ndarray) : bool :=
  match a with Arr1 _ => true | Arr2 _ _ _ => false end.

(** ** Handles on library objects *)

(** A [Tensor] object: an identity and its (immutable) shape; the
    contents live in the library. *)
Record tensor : Type := mkTensor { tid : nat; tshape : list Z }.

Inductive activation : Type := Tanh | ReLu | Sigmoid | Softplus.

(** The layer graph, as the nested constructor calls build it. *)
Inductive layer : Type :=
| Input (name : nat) (shape : list Z)
| Dense (parent : layer) (units : Z)
| Activation (f : activation) (parent : layer).

(** [eddl.Model(inputs, outputs)]. *)
Record model : Type := Model { m_in : list layer; m_out : list layer }.

(** The commands sent to the library (and to numpy's generator). *)
Inductive eddl_call : Type :=
| C_fromarray (a : ndarray) (t : tensor)
| C_Tensor (shape : list Z) (t : tensor)
| C_build (m : option model) (opt : string) (lr : float)
          (lo : list string) (me : list string) (cs : string) (mem : string)
| C_summary (m : option model)
| C_plot (m : option model) (file : string)
| C_fit (m : option model) (x y : list tensor) (batch : Z) (epochs : Z)
| C_reset_loss (m : option model)
| C_next_batch (src dst : list tensor)
| C_train_batch (m : option model) (x y : list tensor)
| C_train_batch_indices (m : option model) (x y : list tensor) (indices : list Z)
| C_randint (low high size : Z)
| C_get_parameters (m : option model) (deepcopy : bool)
| C_set_parameters (m : option model) (ps : list (list tensor))
| C_predict (m : option model) (x : list tensor)
| C_forward (m : option model) (x : list tensor).

(** ** The object *)

Record AE_EDDL : Type := mkAE {
  layers_encoder : list Z;
  layers_decoder : list Z;
  function_encoder : list activation;
  function_decoder : list activation;
  loss : string;
  metric : string;
  stop_training : list PyVal;
  batch_size : Z;
  loss_trend : list (list float);
  metric_trend : list (list float);
  encoder : option layer;
  decoder : option layer;
  decoder2 : option layer;
  optimizer : string;
  model_Autoencoder : option model;
  model_Decoder : option model;
  lr : float;
  cs : string;
  training_type : Z
}.

(** [__init__]: a single activation is broadcast, a single stopping
    value is wrapped in a list. *)
Definition __init__
    (layers_encoder layers_decoder : list Z)
    (function_encoder function_decoder : activation + list activation)
    (stop_training : PyVal + list PyVal)
    (batch_size : Z)
    (loss metric : option string)
    (optimizer : string) (lr : float) (cs : string) (training_type : Z)
  : AE_EDDL :=
  let loss := match loss with None => "mean_squared_error"%string | Some l => l end in
  let metric := match metric with None => "mean_squared_error"%string | Some m => m end in
  let function_encoder :=
    match function_encoder with
    | inl f => repeat f (length layers_encoder)
    | inr fs => fs
    end in
  let function_decoder :=
    match function_decoder with
    | inl f => repeat f (length layers_decoder)
    | inr fs => fs
    end in
  let stop_training :=
    match stop_training with
    | inl v => [v]
    | inr l => l
    end in
  {| layers_encoder := layers_encoder;
     layers_decoder := layers_decoder;
     function_encoder := function_encoder;
     function_decoder := function_decoder;
     loss := loss;
     metric := metric;
     stop_training := stop_training;
     batch_size := batch_size;
     loss_trend := [];
     metric_trend := [];
     encoder := None;
     decoder := None;
     decoder2 := None;
     optimizer := optimizer;
     model_Autoencoder := None;
     model_Decoder := None;
     lr := lr;
     cs := cs;
     training_type := training_type |}.

Definition append_loss_trend (l : list float) (o : AE_EDDL) : AE_EDDL :=
  {| layers_encoder := layers_encoder o; layers_decoder := layers_decoder o;
     function_encoder := function_encoder o; function_decoder := function_decoder o;
     loss := loss o; metric := metric o; stop_training := stop_training o;
     batch_size := batch_size o;
     loss_trend := loss_trend o ++ [l];
     metric_trend := metric_trend o;
     encoder := encoder o; decoder := decoder o; decoder2 := decoder2 o;
     optimizer := optimizer o; model_Autoencoder := model_Autoencoder o;
     model_Decoder := model_Decoder o; lr := lr o; cs := cs o;
     training_type := training_type o |}.

Definition append_metric_trend (l : list float) (o : AE_EDDL) : AE_EDDL :=
  {| layers_encoder := layers_encoder o; layers_decoder := layers_decoder o;
     function_encoder := function_encoder o; function_decoder := function_decoder o;
     loss := loss o; metric := metric o; stop_training := stop_training o;
     batch_size := batch_size o;
     loss_trend := loss_trend o;
     metric_trend := metric_trend o ++ [l];
     encoder := encoder o; decoder := decoder o; decoder2 := decoder2 o;
     optimizer := optimizer o; model_Autoencoder := model_Autoencoder o;
     model_Decoder := model_Decoder o; lr := lr o; cs := cs o;
     training_type := training_type o |}.

(** The attribute assignments of [_build_model]. *)
Definition set_encoder (v : option layer) (o : AE_EDDL) : AE_EDDL :=
  {| layers_encoder := layers_encoder o;
     layers_decoder := layers_decoder o;
     function_encoder := function_encoder o;
     function_decoder := function_decoder o;
     loss := loss o;
     metric := metric o;
     stop_training := stop_training o;
     batch_size := batch_size o;
     loss_trend := loss_trend o;
     metric_trend := metric_trend o;
     encoder := v;
     decoder := decoder o;
     decoder2 := decoder2 o;
     optimizer := optimizer o;
     model_Autoencoder := model_Autoencoder o;
     model_Decoder := model_Decoder o;
     lr := lr o;
     cs := cs o;
     training_type := training_type o |}.

Definition set_decoder (v : option layer) (o : AE_EDDL) : AE_EDDL :=
  {| layers_encoder := layers_encoder o;
     layers_decoder := layers_decoder o;
     function_encoder := function_encoder o;
     function_decoder := function_decoder o;
     loss := loss o;
     metric := metric o;
     stop_training := stop_training o;
     batch_size := batch_size o;
     loss_trend := loss_trend o;
     metric_trend := metric_trend o;
     encoder := encoder o;
     decoder := v;
     decoder2 := decoder2 o;
     optimizer := optimizer o;
     model_Autoencoder := model_Autoencoder o;
     model_Decoder := model_Decoder o;
     lr := lr o;
     cs := cs o;
     training_type := training_type o |}.

Definition set_decoder2 (v : option layer) (o : AE_EDDL) : AE_EDDL :=
  {| layers_encoder := layers_encoder o;
     layers_decoder := layers_decoder o;
     function_encoder := function_encoder o;
     function_decoder := function_decoder o;
     loss := loss o;
     metric := metric o;
     stop_training := stop_training o;
     batch_size := batch_size o;
     loss_trend := loss_trend o;
     metric_trend := metric_trend o;
     encoder := encoder o;
     decoder := decoder o;
     decoder2 := v;
     optimizer := optimizer o;
     model_Autoencoder := model_Autoencoder o;
     model_Decoder := model_Decoder o;
     lr := lr o;
     cs := cs o;
     training_type := training_type o |}.

Definition set_model_Autoencoder (v : option model) (o : AE_EDDL) : AE_EDDL :=
  {| layers_encoder := layers_encoder o;
     layers_decoder := layers_decoder o;
     function_encoder := function_encoder o;
     function_decoder := function_decoder o;
     loss := loss o;
     metric := metric o;
     stop_training := stop_training o;
     batch_size := batch_size o;
     loss_trend := loss_trend o;
     metric_trend := metric_trend o;
     encoder := encoder o;
     decoder := decoder o;
     decoder2 := decoder2 o;
     optimizer := optimizer o;
     model_Autoencoder := v;
     model_Decoder := model_Decoder o;
     lr := lr o;
     cs := cs o;
     training_type := training_type o |}.

Definition set_model_Decoder (v : option model) (o : AE_EDDL) : AE_EDDL :=
  {| layers_encoder := layers_encoder o;
     layers_decoder := layers_decoder o;
     function_encoder := function_encoder o;
     function_decoder := function_decoder o;
     loss := loss o;
     metric := metric o;
     stop_training := stop_training o;
     batch_size := batch_size o;
     loss_trend := loss_trend o;
     metric_trend := metric_trend o;
     encoder := encoder o;
     decoder := decoder o;
     decoder2 := decoder2 o;
     optimizer := optimizer o;
     model_Autoencoder := model_Autoencoder o;
     model_Decoder := v;
     lr := lr o;
     cs := cs o;
     training_type := training_type o |}.

Definition set_stop_training (l : list PyVal) (o : AE_EDDL) : AE_EDDL :=
  {| layers_encoder := layers_encoder o; layers_decoder := layers_decoder o;
     function_encoder := function_encoder o; function_decoder := function_decoder o;
     loss := loss o; metric := metric o; stop_training := l;
     batch_size := batch_size o;
     loss_trend := loss_trend o; metric_trend := metric_trend o;
     encoder := encoder o; decoder := decoder o; decoder2 := decoder2 o;
     optimizer := optimizer o; model_Autoencoder := model_Autoencoder o;
     model_Decoder := model_Decoder o; lr := lr o; cs := cs o;
     training_type := training_type o |}.

(** ** The stopping scan

    [as_int] and [as_float] read a criterion once its type test has
    succeeded; [n_epoch == True] holds for [n_epoch = 1]. *)
Definition as_int (v : PyVal) : Z :=
  match v with
  | PyInt z => z
  | PyBool b => Z.b2z b
  | _ => 0
  end.

Definition as_float (v : PyVal) : float :=
  match v with
  | PyFloat x => x
  | _ => 0%float
  end.

(** [for criteria in self.stop_training: ...], with the local [flag]
    threaded through; [losses[0]] may raise. *)
Fixpoint scan_stop (n_epoch : Z) (losses : list float) (stop : list PyVal)
    (flag : bool) : exn + bool :=
  match stop with
  | [] => inr flag
  | criteria :: rest =>
      if isinstance_int criteria then
        scan_stop n_epoch losses rest
          (if n_epoch =? as_int criteria then false else flag)
      else if isinstance_float criteria then
        match py_index losses 0 with
        | inl e => inl e
        | inr l0 =>
            scan_stop n_epoch losses rest
              (if PrimFloat.ltb l0 (as_float criteria) then false else flag)
        end
      else scan_stop n_epoch losses rest flag
  end.

(** The criterion of the specification: an integer entry is met when
    the epoch counter equals it, a float entry when the first loss is
    strictly below it, anything else never. *)
Definition criterion_met (n_epoch : Z) (losses : list float) (c : PyVal) : bool :=
  match c with
  | PyInt k => n_epoch =? k
  | PyBool b => n_epoch =? Z.b2z b
  | PyFloat x =>
      match losses with
      | l0 :: _ => PrimFloat.ltb l0 x
      | [] => false
      end
  | _ => false
  end.

Definition any_met (n_epoch : Z) (losses : list float) (stop : list PyVal) : bool :=
  existsb (criterion_met n_epoch losses) stop.

(** The local variables of the three [while] loops. *)
Record locals : Type := mkLocals { n_epoch : Z; flag : bool }.

(** ** The library and the monad *)

(** Everything PyEDDL and numpy own (the weights, the layer outputs,
    the loss accumulators, the batch cursor, the random generator) is a
    [world]; commands change it, queries read it.  The scaler objects
    handed in by the caller are part of the same interface. *)
Class EDDL : Type := {
  world : Type;
  exec : eddl_call -> world -> world;
  get_losses : option model -> world -> list float;
  get_metrics : option model -> world -> list float;
  get_parameters : option model -> bool -> world -> list (list tensor);
  getOutput : option layer -> world -> tensor;
  getdata : tensor -> world -> ndarray;
  randint : Z -> Z -> Z -> world -> list Z;
  scaler : Type;
  fit_transform : scaler -> ndarray -> ndarray * scaler;
  scaler_inverse_transform : scaler -> ndarray -> ndarray
}.

Section Methods.

Context {L : EDDL}.

(** The [database] argument of [inverse_transform]. *)
Record database : Type := mkDatabase { scaler_snapshots : option scaler }.

Record State : Type := mkState {
  self : AE_EDDL;
  lib : world;
  calls : list eddl_call;
  fresh : nat
}.

Inductive Res (A : Type) : Type :=
| Val (a : A) (s : State)
| Exc (e : exn) (s : State)
| Timeout (s : State).
Arguments Val {A} a s.
Arguments Exc {A} e s.
Arguments Timeout {A} s.

Definition M (A : Type) : Type := State -> Res A.

Definition ret {A : Type} (a : A) : M A := fun s => Val a s.

Definition bind {A B : Type} (c : M A) (k : A -> M B) : M B :=
  fun s =>
    match c s with
    | Val a s' => k a s'
    | Exc e s' => Exc e s'
    | Timeout s' => Timeout s'
    end.

Notation "x <- c1 ;; c2" := (bind c1 (fun x => c2))
  (at level 61, c1 at next level, right associativity).
Notation "c1 ;; c2" := (bind c1 (fun _ => c2))
  (at level 61, right associativity).

Definition lift {A : Type} (r : exn + A) : M A :=
  fun s => match r with inl e => Exc e s | inr a => Val a s end.

(** Reading an attribute of [self]. *)
Definition attr {A : Type} (f : AE_EDDL -> A) : M A :=
  fun s => Val (f (self s)) s.

(** Assigning to (or mutating in place) an attribute of [self]. *)
Definition modify_self (f : AE_EDDL -> AE_EDDL) : M unit :=
  fun s => Val tt {| self := f (self s); lib := lib s;
                     calls := calls s; fresh := fresh s |}.

(** A library command: applied to the world and logged. *)
Definition call (c : eddl_call) : M unit :=
  fun s => Val tt {| self := self s; lib := exec c (lib s);
                     calls := calls s ++ [c]; fresh := fresh s |}.

(** A library query. *)
Definition query {A : Type} (q : world -> A) : M A :=
  fun s => Val (q (lib s)) s.

(** [Tensor.fromarray(a)]: a new tensor with the array's shape. *)
Definition Tensor_fromarray (a : ndarray) : M tensor :=
  fun s =>
    let t := {| tid := fresh s; tshape := np_shape a |} in
    Val t {| self := self s; lib := exec (C_fromarray a t) (lib s);
             calls := calls s ++ [C_fromarray a t]; fresh := S (fresh s) |}.

(** [Tensor(shape)]: a new tensor of the given shape. *)
Definition Tensor_new (shape : list Z) : M tensor :=
  fun s =>
    let t := {| tid := fresh s; tshape := shape |} in
    Val t {| self := self s; lib := exec (C_Tensor shape t) (lib s);
             calls := calls s ++ [C_Tensor shape t]; fresh := S (fresh s) |}.

Fixpoint for_each {A : Type} (xs : list A) (f : A -> M unit) : M unit :=
  match xs with
  | [] => ret tt
  | x :: rest => f x ;; for_each rest f
  end.

(** [while flag: body], cut off after [fuel] iterations. *)
Fixpoint while_flag (fuel : nat) (body : locals -> M locals) (l : locals)
    (s : State) {struct fuel} : Res locals :=
  if flag l then
    match fuel with
    | O => Timeout s
    | S fuel' => bind (body l) (while_flag fuel' body) s
    end
  else Val l s.

(** *** [_build_model] *)

(** The [for] loop shared by the two nested block functions: layer
    [i] is a dense layer wrapped in [fs[i]]. *)
Fixpoint block_loop (fs : list activation) (widths : list Z) (idx : list Z)
    (lay : layer) : exn + layer :=
  match idx with
  | [] => inr lay
  | i :: rest =>
      match py_index fs i with
      | inl e => inl e
      | inr f =>
          match py_index widths i with
          | inl e => inl e
          | inr w => block_loop fs widths rest (Activation f (Dense lay w))
          end
      end
  end.

Definition last_dense (widths : list Z) (lay : layer) : exn + layer :=
  match py_index widths (-1) with
  | inl e => inl e
  | inr w => inr (Dense lay w)
  end.

(** [EncoderBlock], closed over [self] and the local [layers_encoder]. *)
Definition EncoderBlock (o : AE_EDDL) (layers_encoder : list Z) (lay : layer)
    : exn + layer :=
  match block_loop (function_encoder o) layers_encoder
          (py_range 1 (Z.of_nat (length layers_encoder) - 1)) lay with
  | inl e => inl e
  | inr lay' => last_dense layers_encoder lay'
  end.

(** [DecoderBlock]: the source indexes [self.function_encoder] here too. *)
Definition DecoderBlock (o : AE_EDDL) (layers_decoder : list Z) (lay : layer)
    : exn + layer :=
  match block_loop (function_encoder o) layers_decoder
          (py_range 1 (Z.of_nat (length layers_decoder) - 1)) lay with
  | inl e => inl e
  | inr lay' => last_dense layers_decoder lay'
  end.

Definition build (m : option model) (o : AE_EDDL) : eddl_call :=
  C_build m (optimizer o) (lr o) [loss o] [metric o] (cs o) "low_mem".

Definition _build_model (values : tensor) : M unit :=
  o <- attr id ;;
  d <- lift (py_index (tshape values) 1) ;;
  let layers_encoder := d :: layers_encoder o in
  d' <- lift (py_index (tshape values) 1) ;;
  let layers_decoder := layers_decoder o ++ [d'] in
  (* network 1 *)
  w0 <- lift (py_index layers_encoder 0) ;;
  let in1 := Input 1 [w0] in
  o <- attr id ;;
  e <- lift (EncoderBlock o layers_encoder in1) ;;
  modify_self (set_encoder (Some e)) ;;
  o <- attr id ;;
  dec <- lift (DecoderBlock o layers_decoder e) ;;
  modify_self (set_decoder (Some dec)) ;;
  modify_self (set_model_Autoencoder (Some (Model [in1] [dec]))) ;;
  o <- attr id ;;
  call (build (model_Autoencoder o) o) ;;
  (* network 2 *)
  v0 <- lift (py_index layers_decoder 0) ;;
  let in2 := Input 2 [v0] in
  o <- attr id ;;
  dec2 <- lift (DecoderBlock o layers_decoder in2) ;;
  modify_self (set_decoder2 (Some dec2)) ;;
  modify_self (set_model_Decoder (Some (Model [in2] [dec2]))) ;;
  o <- attr id ;;
  call (build (model_Decoder o) o) ;;
  call (C_summary (model_Autoencoder o)) ;;
  call (C_plot (model_Autoencoder o) "Autoencoder.pdf") ;;
  call (C_summary (model_Decoder o)) ;;
  call (C_plot (model_Decoder o) "Decoder.pdf").


(** *** [fit] *)

(** One pass of [while flag:] for [training_type == 1].  The [print]
    calls write to the console only and are left out. *)
Definition body1 (values : tensor) (l : locals) : M locals :=
  ma <- attr model_Autoencoder ;;
  bs <- attr batch_size ;;
  call (C_fit ma [values] [values] bs 1) ;;
  ma <- attr model_Autoencoder ;;
  losses <- query (get_losses ma) ;;
  ma <- attr model_Autoencoder ;;
  metrics <- query (get_metrics ma) ;;
  modify_self (append_loss_trend losses) ;;
  modify_self (append_metric_trend metrics) ;;
  stop <- attr stop_training ;;
  flag' <- lift (scan_stop (n_epoch l) losses stop (flag l)) ;;
  ret {| n_epoch := n_epoch l + 1; flag := flag' |}.

(** One pass for [training_type == 2]: [xbatch] is the one buffer
    allocated before the loop and refilled by [next_batch]. *)
Definition body2 (values : tensor) (num_batches : Z) (xbatch : tensor)
    (l : locals) : M locals :=
  ma <- attr model_Autoencoder ;;
  call (C_reset_loss ma) ;;
  for_each (py_range 0 num_batches) (fun j =>
    call (C_next_batch [values] [xbatch]) ;;
    ma <- attr model_Autoencoder ;;
    call (C_train_batch ma [xbatch] [xbatch])) ;;
  ma <- attr model_Autoencoder ;;
  losses <- query (get_losses ma) ;;
  ma <- attr model_Autoencoder ;;
  metrics <- query (get_metrics ma) ;;
  modify_self (append_loss_trend losses) ;;
  modify_self (append_metric_trend metrics) ;;
  stop <- attr stop_training ;;
  flag' <- lift (scan_stop (n_epoch l) losses stop (flag l)) ;;
  ret {| n_epoch := n_epoch l + 1; flag := flag' |}.

(** One pass for [training_type == 3]: [s0] is [values.shape[0]]. *)
Definition body3 (values : tensor) (s0 num_batches : Z) (l : locals)
    : M locals :=
  ma <- attr model_Autoencoder ;;
  call (C_reset_loss ma) ;;
  for_each (py_range 0 num_batches) (fun j =>
    bs <- attr batch_size ;;
    indices <- query (randint 0 s0 bs) ;;
    call (C_randint 0 s0 bs) ;;
    ma <- attr model_Autoencoder ;;
    call (C_train_batch_indices ma [values] [values] indices)) ;;
  ma <- attr model_Autoencoder ;;
  losses <- query (get_losses ma) ;;
  ma <- attr model_Autoencoder ;;
  metrics <- query (get_metrics ma) ;;
  modify_self (append_loss_trend losses) ;;
  modify_self (append_metric_trend metrics) ;;
  stop <- attr stop_training ;;
  flag' <- lift (scan_stop (n_epoch l) losses stop (flag l)) ;;
  ret {| n_epoch := n_epoch l + 1; flag := flag' |}.

(** [n_epoch = 1; flag = True]. *)
Definition loop_entry : locals := {| n_epoch := 1; flag := true |}.

(** The training loop of each mode, with what its preamble computed. *)
Inductive training : Type :=
| Coarse (values : tensor)
| Fine_1 (values : tensor) (num_batches : Z) (xbatch : tensor)
| Fine_2 (values : tensor) (s0 num_batches : Z).

Definition body (t : training) : locals -> M locals :=
  match t with
  | Coarse values => body1 values
  | Fine_1 values num_batches xbatch => body2 values num_batches xbatch
  | Fine_2 values s0 num_batches => body3 values s0 num_batches
  end.

Definition train_loop (fuel : nat) (t : training) : M locals :=
  while_flag fuel (body t) loop_entry.

(** The branch on [self.training_type], up to the end of the loop. *)
Definition train (fuel : nat) (values : tensor) : M unit :=
  tt1 <- attr training_type ;;
  if tt1 =? 1 then
    train_loop fuel (Coarse values) ;; ret tt
  else
    tt2 <- attr training_type ;;
    if tt2 =? 2 then
      s0 <- lift (py_index (tshape values) 0) ;;
      bs <- attr batch_size ;;
      num_batches <- lift (py_floordiv s0 bs) ;;
      bs <- attr batch_size ;;
      xbatch <- Tensor_new [bs; 3067] ;;
      train_loop fuel (Fine_1 values num_batches xbatch) ;; ret tt
    else
      tt3 <- attr training_type ;;
      if tt3 =? 3 then
        s0 <- lift (py_index (tshape values) 0) ;;
        bs <- attr batch_size ;;
        num_batches <- lift (py_floordiv s0 bs) ;;
        train_loop fuel (Fine_2 values s0 num_batches) ;; ret tt
      else ret tt.

(** The parameter transfer that ends [fit]. *)
Definition copy_parameters : M unit :=
  le <- attr layers_encoder ;;
  let num_hidden := Z.of_nat (length le) in
  let num_lay_deccoder := 2 * num_hidden - 1 in
  ma <- attr model_Autoencoder ;;
  full <- query (get_parameters ma true) ;;
  let decoder_parameters := py_slice_from (- num_lay_deccoder) full in
  let decoder_parameters := [] :: decoder_parameters in
  md <- attr model_Decoder ;;
  call (C_set_parameters md decoder_parameters).

Definition fit (fuel : nat) (values : ndarray) : M unit :=
  let values := np_T values in
  values <- Tensor_fromarray values ;;
  _build_model values ;;
  train fuel values ;;
  copy_parameters.

(** *** [transform] and [inverse_transform] *)

(** The scaler is mutated by [fit_transform]; its new state is
    returned next to the result. *)
Definition transform (X : ndarray) (scaler_red : option scaler)
    : M (ndarray * option scaler) :=
  X <- Tensor_fromarray (np_T X) ;;
  ma <- attr model_Autoencoder ;;
  call (C_predict ma [X]) ;;
  enc <- attr encoder ;;
  g <- query (getOutput enc) ;;
  gd <- query (getdata g) ;;
  let reduced_output := np_T (np_T gd) in
  match scaler_red with
  | Some sc =>
      let (reduced_output, sc') := fit_transform sc reduced_output in
      ret (reduced_output, Some sc')
  | None => ret (reduced_output, None)
  end.

(** [database and database.scaler_snapshots]. *)
Definition snapshot_scaler (db : option database) : option scaler :=
  match db with
  | Some d => scaler_snapshots d
  | None => None
  end.

(** The array called [predicted_sol] before the final test. *)
Definition rescale (db : option database) (predicted_sol : ndarray) : ndarray :=
  match snapshot_scaler db with
  | Some sc => np_T (scaler_inverse_transform sc (np_T predicted_sol))
  | None => predicted_sol
  end.

Definition squeeze_or_transpose (predicted_sol : ndarray) : ndarray :=
  if one_in_shape predicted_sol then np_ravel predicted_sol
  else np_T predicted_sol.

Definition inverse_transform (g : ndarray) (db : option database) : M ndarray :=
  g <- Tensor_fromarray (np_T g) ;;
  md <- attr model_Decoder ;;
  call (C_forward md [g]) ;;
  d2 <- attr decoder2 ;;
  u <- query (getOutput d2) ;;
  ud <- query (getdata u) ;;
  let predicted_sol := np_T ud in
  let predicted_sol := rescale db predicted_sol in
  ret (squeeze_or_transpose predicted_sol).

Definition reduce (X : ndarray) (scaler_red : option scaler) :=
  transform X scaler_red.

Definition expand (g : ndarray) (db : option database) :=
  inverse_transform g db.

End Methods.

Arguments Val {L A} a s.
Arguments Exc {L A} e s.
Arguments Timeout {L A} s.

Notation "x <- c1 ;; c2" := (bind c1 (fun x => c2))
  (at level 61, c1 at next level, right associativity).
Notation "c1 ;; c2" := (bind c1 (fun _ => c2))
  (at level 61, right associativity).

(** The state a result ends in. *)
Definition final {L : EDDL} {A : Type} (r : Res A) : State :=
  match r with
  | Val _ s => s
  | Exc _ s => s
  | Timeout s => s
  end.

(** The loop came to an end, by [flag] or by an exception. *)
Definition finished {L : EDDL} {A : Type} (r : Res A) : bool :=
  match r with
  | Timeout _ => false
  | _ => true
  end.

(** ** Counting and slicing, as the specification words them *)

(** The last [k] entries of a list. *)
Definition last_groups {A : Type} (k : nat) (xs : list A) : list A :=
  skipn (length xs - k) xs.

(** The integer entries of a stopping list, and their maximum. *)
Definition int_entries (stop : list PyVal) : list Z :=
  map as_int (filter isinstance_int stop).

Definition max_int_entry (stop : list PyVal) : option Z :=
  match int_entries stop with
  | [] => None
  | k :: ks => Some (fold_left Z.max ks k)
  end.

(** The library calls of one kind in a log. *)
Definition is_train_batch (c : eddl_call) : bool :=
  match c with C_train_batch _ _ _ => true | _ => false end.

Definition is_next_batch (c : eddl_call) : bool :=
  match c with C_next_batch _ _ => true | _ => false end.

(** Calls that train a model or overwrite its parameters. *)
Definition writes_parameters (c : eddl_call) : bool :=
  match c with
  | C_build _ _ _ _ _ _ _ | C_fit _ _ _ _ _ | C_train_batch _ _ _
  | C_train_batch_indices _ _ _ _ | C_set_parameters _ _ => true
  | _ => false
  end.

(** The layers of a graph from its input to the given layer. *)
Fixpoint chain (lay : layer) : list layer :=
  match lay with
  | Input _ _ => [lay]
  | Dense p _ => chain p ++ [lay]
  | Activation _ p => chain p ++ [lay]
  end.

(** The activation wrapped around every non-final dense layer of a
    graph, from the output back to the input. *)
Fixpoint activations (lay : layer) : list activation :=
  match lay with
  | Input _ _ => []
  | Dense p _ => activations p
  | Activation f p => f :: activations p
  end.

Definition layer_units (lay : layer) : Z :=
  match lay with
  | Input _ shape => hd 0 shape
  | Dense _ u => u
  | Activation _ p =>
      match p with
      | Dense _ u => u
      | _ => 0
      end
  end.

(** ** The epochs as pure state transformers

    What one pass of each loop does to the state, written without the
    monad; the facts below show the loop bodies compute exactly this. *)

Section Epochs.

Context {L : EDDL}.

Definition with_call (c : eddl_call) (s : State) : State :=
  {| self := self s; lib := exec c (lib s);
     calls := calls s ++ [c]; fresh := fresh s |}.

Definition with_self (f : AE_EDDL -> AE_EDDL) (s : State) : State :=
  {| self := f (self s); lib := lib s; calls := calls s; fresh := fresh s |}.

(** One batch of [training_type == 2]. *)
Definition batch_step2 (values xbatch : tensor) (s : State) : State :=
  let s1 := with_call (C_next_batch [values] [xbatch]) s in
  with_call (C_train_batch (model_Autoencoder (self s1)) [xbatch] [xbatch]) s1.

(** One batch of [training_type == 3]. *)
Definition batch_step3 (values : tensor) (s0 : Z) (s : State) : State :=
  let bs := batch_size (self s) in
  let indices := randint 0 s0 bs (lib s) in
  let s1 := with_call (C_randint 0 s0 bs) s in
  with_call (C_train_batch_indices (model_Autoencoder (self s1))
               [values] [values] indices) s1.

(** The training commands of one epoch. *)
Definition epoch_work (t : training) (s : State) : State :=
  match t with
  | Coarse values =>
      with_call (C_fit (model_Autoencoder (self s)) [values] [values]
                   (batch_size (self s)) 1) s
  | Fine_1 values num_batches xbatch =>
      Nat.iter (Z.to_nat num_batches) (batch_step2 values xbatch)
        (with_call (C_reset_loss (model_Autoencoder (self s))) s)
  | Fine_2 values s0 num_batches =>
      Nat.iter (Z.to_nat num_batches) (batch_step3 values s0)
        (with_call (C_reset_loss (model_Autoencoder (self s))) s)
  end.

(** What the library reports once the epoch's training is done. *)
Definition epoch_losses (t : training) (s : State) : list float :=
  let w := epoch_work t s in
  get_losses (model_Autoencoder (self w)) (lib w).

Definition epoch_metrics (t : training) (s : State) : list float :=
  let w := epoch_work t s in
  get_metrics (model_Autoencoder (self w)) (lib w).

(** The state at the end of the epoch, the two trends extended. *)
Definition record_epoch (t : training) (s : State) : State :=
  let w := epoch_work t s in
  {| self := append_metric_trend (epoch_metrics t s)
               (append_loss_trend (epoch_losses t s) (self w));
     lib := lib w; calls := calls w; fresh := fresh w |}.

(** The state after [j] epochs, and the losses of epoch [j + 1]. *)
Definition after_epochs (t : training) (j : nat) (s : State) : State :=
  Nat.iter j (record_epoch t) s.

Definition losses_of_epoch (t : training) (j : nat) (s : State) : list float :=
  epoch_losses t (after_epochs t j s).

Definition metrics_of_epoch (t : training) (j : nat) (s : State) : list float :=
  epoch_metrics t (after_epochs t j s).

(** Some criterion of the object's list is met at the end of epoch
    [j + 1]. *)
Definition halts_after (t : training) (j : nat) (s : State) : bool :=
  any_met (Z.of_nat (S j)) (losses_of_epoch t j s) (stop_training (self s)).

(** Replacing the stopping list, in a state and in a result. *)
Definition with_stop (stop : list PyVal) (s : State) : State :=
  with_self (set_stop_training stop) s.

Definition res_with_stop {A : Type} (stop : list PyVal) (r : Res A) : Res A :=
  match r with
  | Val a s => Val a (with_stop stop s)
  | Exc e s => Exc e (with_stop stop s)
  | Timeout s => Timeout (with_stop stop s)
  end.

(** The array [inverse_transform] calls [predicted_sol] before any
    rescaling, and the state it leaves. *)
Definition forwarded (g : ndarray) (s : State) : State :=
  let t := {| tid := fresh s; tshape := np_shape (np_T g) |} in
  let s1 := {| self := self s; lib := exec (C_fromarray (np_T g) t) (lib s);
               calls := calls s ++ [C_fromarray (np_T g) t];
               fresh := S (fresh s) |} in
  with_call (C_forward (model_Decoder (self s1)) [t]) s1.

Definition decoder_output (g : ndarray) (s : State) : ndarray :=
  let s2 := forwarded g s in
  getdata (getOutput (decoder2 (self s2)) (lib s2)) (lib s2).


End Epochs.

(** ** What a method leaves alone

    The object with its two trends emptied, and with its five graph
    attributes emptied: two methods leave the same attributes alone
    when these projections of the object agree before and after. *)
Definition clear_trends (o : AE_EDDL) : AE_EDDL :=
  {| layers_encoder := layers_encoder o;
     layers_decoder := layers_decoder o;
     function_encoder := function_encoder o;
     function_decoder := function_decoder o;
     loss := loss o;
     metric := metric o;
     stop_training := stop_training o;
     batch_size := batch_size o;
     loss_trend := [];
     metric_trend := [];
     encoder := encoder o;
     decoder := decoder o;
     decoder2 := decoder2 o;
     optimizer := optimizer o;
     model_Autoencoder := model_Autoencoder o;
     model_Decoder := model_Decoder o;
     lr := lr o;
     cs := cs o;
     training_type := training_type o |}.

Definition clear_graphs (o : AE_EDDL) : AE_EDDL :=
  {| layers_encoder := layers_encoder o;
     layers_decoder := layers_decoder o;
     function_encoder := function_encoder o;
     function_decoder := function_decoder o;
     loss := loss o;
     metric := metric o;
     stop_training := stop_training o;
     batch_size := batch_size o;
     loss_trend := loss_trend o;
     metric_trend := metric_trend o;
     encoder := None;
     decoder := None;
     decoder2 := None;
     optimizer := optimizer o;
     model_Autoencoder := None;
     model_Decoder := None;
     lr := lr o;
     cs := cs o;
     training_type := training_type o |}.

(** A matrix holds as many rows, and rows as long, as its shape says. *)
Definition well_formed (a : ndarray) : bool :=
  match a with
  | Arr1 _ => true
  | Arr2 r c rows =>
      (length rows =? r)%nat && forallb (fun row => (length row =? c)%nat) rows
  end.

(** The commands that train a model. *)
Definition is_training_call (c : eddl_call) : bool :=
  match c with
  | C_fit _ _ _ _ _ | C_train_batch _ _ _ | C_train_batch_indices _ _ _ _ => true
  | _ => false
  end.

(** The number of layers of a graph, its input included. *)
Definition layer_count (lay : layer) : nat := length (chain lay).

(** The layers of a model with one output. *)
Definition model_layers (m : option model) : nat :=
  match m with
  | Some {| m_in := _; m_out := [out] |} => layer_count out
  | _ => 0%nat
  end.

(** ** The states [_build_model] goes through

    With the feature dimension [d] and the three graphs the block
    functions return: the state once [self.encoder] is assigned, once
    the autoencoder is built, and at the end. *)
Section BuilderStates.

Context {L : EDDL}.

Definition encoder_assigned (e : layer) (s : State) : State :=
  with_self (set_encoder (Some e)) s.

Definition autoencoder_built (d : Z) (e dec : layer) (s : State) : State :=
  let s2 := with_self (set_model_Autoencoder (Some (Model [Input 1 [d]] [dec])))
              (with_self (set_decoder (Some dec)) (encoder_assigned e s)) in
  with_call (build (model_Autoencoder (self s2)) (self s2)) s2.

Definition models_built (d : Z) (e dec dec2 : layer) (s : State) : State :=
  let in2 := Input 2 [hd d (layers_decoder (self s))] in
  let s4 := with_self (set_model_Decoder (Some (Model [in2] [dec2])))
              (with_self (set_decoder2 (Some dec2)) (autoencoder_built d e dec s)) in
  with_call (C_plot (model_Decoder (self s4)) "Decoder.pdf")
    (with_call (C_summary (model_Decoder (self s4)))
       (with_call (C_plot (model_Autoencoder (self s4)) "Autoencoder.pdf")
          (with_call (C_summary (model_Autoencoder (self s4)))
             (with_call (build (model_Decoder (self s4)) (self s4)) s4)))).

(** The outcome of [_build_model], case by case. *)
Definition build_outcome (values : tensor) (s : State) : Res unit :=
  match py_index (tshape values) 1 with
  | inl x => Exc x s
  | inr d =>
      let LE := d :: layers_encoder (self s) in
      let LD := layers_decoder (self s) ++ [d] in
      match EncoderBlock (self s) LE (Input 1 [d]) with
      | inl x => Exc x s
      | inr e =>
          match DecoderBlock (self s) LD e with
          | inl x => Exc x (encoder_assigned e s)
          | inr dec =>
              match DecoderBlock (self s) LD
                      (Input 2 [hd d (layers_decoder (self s))]) with
              | inl x => Exc x (autoencoder_built d e dec s)
              | inr dec2 => Val tt (models_built d e dec dec2 s)
              end
          end
      end
  end.

End BuilderStates.

(** ** The forward pass of [transform]

    The state [transform] leaves, and the array the library holds as
    the output of [self.encoder] after that pass. *)
Section TransformStates.

Context {L : EDDL}.

Definition predicted (X : ndarray) (s : State) : State :=
  let t := {| tid := fresh s; tshape := np_shape (np_T X) |} in
  let s1 := {| self := self s; lib := exec (C_fromarray (np_T X) t) (lib s);
               calls := calls s ++ [C_fromarray (np_T X) t];
               fresh := S (fresh s) |} in
  with_call (C_predict (model_Autoencoder (self s1)) [t]) s1.

Definition encoder_output (X : ndarray) (s : State) : ndarray :=
  let s2 := predicted X s in
  getdata (getOutput (encoder (self s2)) (lib s2)) (lib s2).

End TransformStates.

(** ** The [Database] constructor *)

Inductive db_exn : Type := RuntimeError.

(** What a constructed container holds: the shapes of its two matrices,
    or nothing. *)
Record Database : Type := mkDB {
  db_parameters : option (Z * Z);
  db_snapshots : option (Z * Z)
}.

(** Modelled from the spec: the constructor of [Database], whose class
    is not among the sources (only [tests/test_database.py] is).  The
    specification has it succeed on no arguments with an empty
    container, fail when the sample counts (the first dimensions) of
    the parameter and snapshot matrices disagree, and fail when a
    single matrix is given, there being too few inputs to form a
    database.  Matrices are represented by their shapes; the
    rank condition the specification mentions is not modelled. *)
Definition Database_init (parameters snapshots : option (Z * Z))
    : db_exn + Database :=
  match parameters, snapshots with
  | None, None => inr {| db_parameters := None; db_snapshots := None |}
  | Some p, Some s =>
      if fst p =? fst s
      then inr {| db_parameters := Some p; db_snapshots := Some s |}
      else inl RuntimeError
  | _, _ => inl RuntimeError
  end.

(** ** A small library instance, for running the methods *)

Module Toy.

(** The world counts the training commands and remembers how many
    samples the last forward pass was given. *)
Record toy_world : Type := mkToy { steps : nat; samples : Z }.

Definition toy_exec (c : eddl_call) (w : toy_world) : toy_world :=
  match c with
  | C_fit _ _ _ _ _ | C_train_batch _ _ _ | C_train_batch_indices _ _ _ _ =>
      {| steps := S (steps w); samples := samples w |}
  | C_predict _ [x] | C_forward _ [x] =>
      {| steps := steps w; samples := hd 0 (tshape x) |}
  | _ => w
  end.

(** The loss halves with every training command. *)
Definition toy_losses (_ : option model) (w : toy_world) : list float :=
  [nth (steps w) [1; 0.5; 0.25; 0.125]%float 0.0625%float].

Definition toy_parameters (m : option model) (_ : bool) (_ : toy_world)
    : list (list tensor) :=
  match m with
  | Some {| m_in := _; m_out := [out] |} =>
      map (fun lay =>
             match lay with
             | Dense _ u => [mkTensor 0 [u]]
             | _ => []
             end) (chain out)
  | _ => []
  end.

Definition toy_getOutput (lay : option layer) (w : toy_world) : tensor :=
  match lay with
  | Some l => mkTensor 0 [samples w; layer_units l]
  | None => mkTensor 0 []
  end.

Definition toy_getdata (t : tensor) (_ : toy_world) : ndarray :=
  match tshape t with
  | [r; c] =>
      Arr2 (Z.to_nat r) (Z.to_nat c)
        (repeat (repeat 0.5%float (Z.to_nat c)) (Z.to_nat r))
  | _ => Arr1 []
  end.

Definition toy_randint (low high size : Z) (_ : toy_world) : list Z :=
  repeat low (Z.to_nat size).

(** A scaler that overwrites every entry with its own value. *)
Definition toy_inverse (sc : float) (a : ndarray) : ndarray :=
  match a with
  | Arr1 v => Arr1 (map (fun _ => sc) v)
  | Arr2 r c rows => Arr2 r c (map (map (fun _ => sc)) rows)
  end.

Definition eddl : EDDL :=
  {| world := toy_world;
     exec := toy_exec;
     get_losses := toy_losses;
     get_metrics := toy_losses;
     get_parameters := toy_parameters;
     getOutput := toy_getOutput;
     getdata := toy_getdata;
     randint := toy_randint;
     scaler := float;
     fit_transform := fun sc a => (a, sc);
     scaler_inverse_transform := toy_inverse |}.

Definition start (o : AE_EDDL) : @State eddl :=
  @mkState eddl o {| steps := 0; samples := 0 |} [] 0.

(** [AE_EDDL([4, 2], [2, 4], Tanh, ReLu, stop, batch_size,
    training_type=t)]. *)
Definition ae (stop : PyVal + list PyVal) (bs t : Z) : AE_EDDL :=
  __init__ [4; 2] [2; 4] (inl Tanh) (inl ReLu) stop bs None None
    "adam" 0x1.0624dd2f1a9fcp-10%float "CS_CPU" t.

(** A snapshot matrix with [d] features (rows) and [n] samples
    (columns). *)
Definition snapshots (d n : nat) : ndarray :=
  Arr2 d n (repeat (repeat 0.5%float n) d).

(** The tensor [fit] makes of [snapshots 6 4]. *)
Definition values : tensor := {| tid := 0; tshape := [4; 6] |}.

(** [AE_EDDL([4, 2], [2, 4], [Sigmoid, Tanh], [ReLu, Softplus], 1, 2)]. *)
Definition ae_lists : AE_EDDL :=
  __init__ [4; 2] [2; 4] (inr [Sigmoid; Tanh]) (inr [ReLu; Softplus])
    (inl (PyInt 1)) 2 None None "adam" 0x1.0624dd2f1a9fcp-10%float "CS_CPU" 2.

(** [AE_EDDL([], [], Tanh, ReLu, 1, 2, training_type=1)]. *)
Definition ae_empty : AE_EDDL :=
  __init__ [] [] (inl Tanh) (inl ReLu) (inl (PyInt 1)) 2 None None
    "adam" 0x1.0624dd2f1a9fcp-10%float "CS_CPU" 1.

(** The state in which [fit], given [snapshots 6 4], enters its
    training branch: the matrix converted, the two models built. *)
Definition built (o : AE_EDDL) : @State eddl :=
  final (_build_model values
           (final (Tensor_fromarray (np_T (snapshots 6 4)) (start o)))).

(** The state [fit] leaves for a matrix of [d] features and four
    samples, one coarse epoch. *)
Definition trained (d : nat) : @State eddl :=
  final (fit 3 (snapshots d 4) (start (ae (inl (PyInt 1)) 2 1))).

End Toy.

(** Two variants of the small library: one whose training has diverged
    (every loss is NaN), one that reports no loss at all. *)
Module Odd.

Definition with_losses (f : option model -> Toy.toy_world -> list float) : EDDL :=
  {| world := Toy.toy_world;
     exec := Toy.toy_exec;
     get_losses := f;
     get_metrics := Toy.toy_losses;
     get_parameters := Toy.toy_parameters;
     getOutput := Toy.toy_getOutput;
     getdata := Toy.toy_getdata;
     randint := Toy.toy_randint;
     scaler := float;
     fit_transform := fun sc a => (a, sc);
     scaler_inverse_transform := Toy.toy_inverse |}.

Definition diverged : EDDL := with_losses (fun _ _ => [nan]).

Definition silent : EDDL := with_losses (fun _ _ => []).





Definition start (E : EDDL) (w : @world E) (o : AE_EDDL) : @State E :=
  @mkState E o w [] 0.

End Odd.

(** * Facts *)

(** ** Lists, indices and slices *)

Lemma py_index_head {A : Type} (x : A) (xs : list A) :
  py_index (x :: xs) 0 = inr x.
Proof.
  unfold py_index. cbn [length].
  replace (0 <? 0) with false by reflexivity.
  assert (H : (0 <=? 0) && (0 <? Z.of_nat (S (length xs))) = true).
  { apply andb_true_iff. split; [apply Z.leb_le | apply Z.ltb_lt]; lia. }
  rewrite H. reflexivity.
Qed.

Lemma py_index_nil {A : Type} (i : Z) : py_index (@nil A) i = inl IndexError.
Proof.
  unfold py_index.
  destruct ((0 <=? _) && (_ <? _)); [|reflexivity].
  now destruct (Z.to_nat _).
Qed.

Lemma py_range_length (a b : Z) : length (py_range a b) = Z.to_nat (b - a).
Proof. unfold py_range. now rewrite length_map, length_seq. Qed.

(** [xs[-k:]] is the last [k] entries whenever [1 <= k <= len(xs)]. *)
Lemma py_slice_last {A : Type} (k : Z) (xs : list A) :
  1 <= k <= Z.of_nat (length xs) ->
  py_slice_from (- k) xs = last_groups (Z.to_nat k) xs.
Proof.
  intros Hk. unfold py_slice_from, last_groups.
  replace (- k <? 0) with true by (symmetry; apply Z.ltb_lt; lia).
  f_equal. lia.
Qed.

Lemma last_groups_length {A : Type} (k : nat) (xs : list A) :
  (k <= length xs)%nat -> length (last_groups k xs) = k.
Proof. intros Hk. unfold last_groups. rewrite length_skipn. lia. Qed.

Lemma last_groups_suffix {A : Type} (k : nat) (xs : list A) :
  xs = firstn (length xs - k) xs ++ last_groups k xs.
Proof. unfold last_groups. now rewrite firstn_skipn. Qed.

(** ** The stopping scan *)

(** Once lowered, the flag stays lowered. *)
Lemma scan_stop_false (n : Z) (losses : list float) (stop : list PyVal) (f : bool) :
  scan_stop n losses stop false = inr f -> f = false.
Proof.
  revert f. induction stop as [|c rest IH]; intros f H; cbn in H.
  - now inversion H.
  - destruct (isinstance_int c).
    + destruct (n =? as_int c); now apply IH.
    + destruct (isinstance_float c); [|now apply IH].
      destruct (py_index losses 0); [discriminate|].
      destruct (PrimFloat.ltb f0 (as_float c)); now apply IH.
Qed.

(** With at least one loss reported the scan cannot raise, and it
    lowers the flag exactly when some criterion is met. *)
Lemma scan_stop_met (n : Z) (l0 : float) (ls : list float) (stop : list PyVal) (f : bool) :
  scan_stop n (l0 :: ls) stop f = inr (f && negb (any_met n (l0 :: ls) stop)).
Proof.
  revert f. induction stop as [|c rest IH]; intros f; cbn [scan_stop].
  - cbn. now rewrite andb_true_r.
  - rewrite py_index_head. unfold any_met in *. cbn [existsb].
    destruct c; cbn [isinstance_int isinstance_float as_int as_float criterion_met];
      rewrite IH.
    + now destruct (n =? z), f.
    + now destruct (n =? Z.b2z b), f.
    + now destruct (PrimFloat.ltb l0 x), f.
    + reflexivity.
    + reflexivity.
Qed.

(** Without float entries the losses are never looked at. *)
Lemma scan_stop_no_float (n : Z) (losses : list float) (stop : list PyVal) (f : bool) :
  forallb (fun c => negb (isinstance_float c)) stop = true ->
  scan_stop n losses stop f = inr (f && negb (any_met n losses stop)).
Proof.
  revert f. induction stop as [|c rest IH]; intros f Hnf; cbn [scan_stop].
  - cbn. now rewrite andb_true_r.
  - cbn [forallb] in Hnf. apply andb_true_iff in Hnf. destruct Hnf as [Hc Hrest].
    unfold any_met in *. cbn [existsb].
    destruct c; cbn [isinstance_int isinstance_float as_int as_float criterion_met];
      try discriminate; rewrite (IH _ Hrest).
    + now destruct (n =? z), f.
    + now destruct (n =? Z.b2z b), f.
    + reflexivity.
    + reflexivity.
Qed.

(** An integer entry equal to the counter lowers the flag. *)
Lemma scan_stop_int_hit (n : Z) (losses : list float) (stop : list PyVal) (f f' : bool) :
  In n (int_entries stop) ->
  scan_stop n losses stop f = inr f' -> f' = false.
Proof.
  revert f. induction stop as [|c rest IH]; intros f Hin H; [contradiction|].
  unfold int_entries in *. cbn [filter scan_stop] in *.
  destruct (isinstance_int c) eqn:Hc.
  - cbn [map] in Hin. destruct Hin as [Heq | Hin].
    + rewrite <- Heq, Z.eqb_refl in H. now apply scan_stop_false in H.
    + now apply (IH _ Hin H).
  - destruct (isinstance_float c).
    + destruct (py_index losses 0); [discriminate|]. now apply (IH _ Hin H).
    + now apply (IH _ Hin H).
Qed.

(** An entry that is neither an integer nor a float leaves the scan as
    it is, its exceptions included. *)
Lemma scan_stop_skip (n : Z) (losses : list float) (l1 l2 : list PyVal)
    (x : PyVal) (f : bool) :
  isinstance_int x = false -> isinstance_float x = false ->
  scan_stop n losses (l1 ++ x :: l2) f = scan_stop n losses (l1 ++ l2) f.
Proof.
  intros Hi Hf. revert f. induction l1 as [|c rest IH]; intros f; cbn [app scan_stop].
  - now rewrite Hi, Hf.
  - destruct (isinstance_int c); [apply IH|].
    destruct (isinstance_float c); [|apply IH].
    destruct (py_index losses 0); [reflexivity | apply IH].
Qed.

Lemma fold_max_ge (ks : list Z) (k : Z) : k <= fold_left Z.max ks k.
Proof.
  revert k. induction ks as [|a ks IH]; intros k; cbn; [lia|].
  specialize (IH (Z.max k a)). lia.
Qed.

Lemma fold_max_in (ks : list Z) (k a : Z) : In a ks -> a <= fold_left Z.max ks k.
Proof.
  revert k. induction ks as [|b ks IH]; intros k Hin; [contradiction|].
  cbn. destruct Hin as [-> | Hin]; [|now apply IH].
  pose proof (fold_max_ge ks (Z.max k a)). lia.
Qed.

Lemma max_int_entry_bound (stop : list PyVal) (k : Z) :
  In k (int_entries stop) ->
  exists kmax, max_int_entry stop = Some kmax /\ k <= kmax.
Proof.
  unfold max_int_entry. destruct (int_entries stop) as [|a ks]; [contradiction|].
  intros [-> | Hin]; eexists; split; try reflexivity.
  - apply fold_max_ge.
  - now apply fold_max_in.
Qed.

(** ** The training loops *)

Section LoopFacts.

Context {L : EDDL}.

(** A [for] loop whose body is one fixed state change. *)
Lemma for_each_steps {A : Type} (xs : list A) (f : A -> M unit)
    (step : State -> State) :
  (forall x s, f x s = Val tt (step s)) ->
  forall s, for_each xs f s = Val tt (Nat.iter (length xs) step s).
Proof.
  intros Hf. induction xs as [|x rest IH]; intros s; [reflexivity|].
  cbn [for_each length]. unfold bind at 1. rewrite Hf, IH.
  now rewrite Nat.iter_succ_r.
Qed.

Lemma self_iter (step : State -> State) (n : nat) (s : State) :
  (forall s', self (step s') = self s') ->
  self (Nat.iter n step s) = self s.
Proof.
  intros H. induction n as [|n IH]; [reflexivity|].
  now rewrite Nat.iter_succ, H.
Qed.

(** Training leaves every attribute of the object alone. *)
Lemma self_epoch_work (t : training) (s : State) :
  self (epoch_work t s) = self s.
Proof.
  destruct t; cbn [epoch_work]; [reflexivity| |];
    now rewrite self_iter.
Qed.

(** Each of the three loop bodies is: the mode's training commands,
    the two appends, the scan, the increment. *)
Lemma body_spec (t : training) (l : locals) (s : State) :
  body t l s =
  match scan_stop (n_epoch l) (epoch_losses t s) (stop_training (self s)) (flag l) with
  | inr f => Val {| n_epoch := n_epoch l + 1; flag := f |} (record_epoch t s)
  | inl e => Exc e (record_epoch t s)
  end.
Proof.
  rewrite <- (self_epoch_work t s) at 1.
  destruct t as [values | values nb xbatch | values s0 nb]; cbn [body].
  - unfold body1, record_epoch, epoch_losses, epoch_metrics.
    cbn [epoch_work]. unfold bind, attr, call, query, modify_self, lift, ret, with_call.
    cbn. now destruct (scan_stop _ _ _ _).
  - unfold body2, record_epoch, epoch_losses, epoch_metrics.
    cbn [epoch_work].
    unfold bind at 1. unfold attr at 1.
    unfold bind at 1. unfold call at 1.
    unfold bind at 1.
    rewrite (for_each_steps _ _ (batch_step2 values xbatch)) by reflexivity.
    rewrite py_range_length, Z.sub_0_r.
    unfold bind, attr, call, query, modify_self, lift, ret, with_call.
    cbn. now destruct (scan_stop _ _ _ _).
  - unfold body3, record_epoch, epoch_losses, epoch_metrics.
    cbn [epoch_work].
    unfold bind at 1. unfold attr at 1.
    unfold bind at 1. unfold call at 1.
    unfold bind at 1.
    rewrite (for_each_steps _ _ (batch_step3 values s0)) by reflexivity.
    rewrite py_range_length, Z.sub_0_r.
    unfold bind, attr, call, query, modify_self, lift, ret, with_call.
    cbn. now destruct (scan_stop _ _ _ _).
Qed.

Lemma while_done (fuel : nat) (b : locals -> M locals) (l : locals) (s : State) :
  flag l = false -> while_flag fuel b l s = Val l s.
Proof. intros H. destruct fuel; cbn; now rewrite H. Qed.

Lemma while_step (fuel : nat) (b : locals -> M locals) (l : locals) (s : State) :
  flag l = true ->
  while_flag (S fuel) b l s = bind (b l) (while_flag fuel b) s.
Proof. intros H. cbn. now rewrite H. Qed.

Lemma while_out_of_fuel (b : locals -> M locals) (l : locals) (s : State) :
  flag l = true -> while_flag 0 b l s = Timeout s.
Proof. intros H. cbn. now rewrite H. Qed.

(** *** What an epoch records *)

Lemma record_epoch_stop (t : training) (s : State) :
  stop_training (self (record_epoch t s)) = stop_training (self s).
Proof. unfold record_epoch. cbn. now rewrite self_epoch_work. Qed.

Lemma record_epoch_loss_trend (t : training) (s : State) :
  loss_trend (self (record_epoch t s)) = loss_trend (self s) ++ [epoch_losses t s].
Proof. unfold record_epoch. cbn. now rewrite self_epoch_work. Qed.

Lemma record_epoch_metric_trend (t : training) (s : State) :
  metric_trend (self (record_epoch t s)) = metric_trend (self s) ++ [epoch_metrics t s].
Proof. unfold record_epoch. cbn. now rewrite self_epoch_work. Qed.

Lemma after_epochs_shift (t : training) (j : nat) (s : State) :
  after_epochs t (S j) s = after_epochs t j (record_epoch t s).
Proof. unfold after_epochs. apply Nat.iter_succ_r. Qed.

Lemma after_epochs_stop (t : training) (j : nat) (s : State) :
  stop_training (self (after_epochs t j s)) = stop_training (self s).
Proof.
  induction j as [|j IH]; [reflexivity|].
  unfold after_epochs in *. now rewrite Nat.iter_succ, record_epoch_stop.
Qed.

Lemma after_epochs_loss_trend (t : training) (e : nat) (s : State) :
  loss_trend (self (after_epochs t e s)) =
  loss_trend (self s) ++ map (fun j => losses_of_epoch t j s) (seq 0 e).
Proof.
  induction e as [|e IH]; [cbn; now rewrite app_nil_r|].
  rewrite seq_S, map_app, app_assoc, <- IH. cbn [map Nat.add].
  unfold losses_of_epoch, after_epochs in *.
  now rewrite Nat.iter_succ, record_epoch_loss_trend.
Qed.

Lemma after_epochs_metric_trend (t : training) (e : nat) (s : State) :
  metric_trend (self (after_epochs t e s)) =
  metric_trend (self s) ++ map (fun j => metrics_of_epoch t j s) (seq 0 e).
Proof.
  induction e as [|e IH]; [cbn; now rewrite app_nil_r|].
  rewrite seq_S, map_app, app_assoc, <- IH. cbn [map Nat.add].
  unfold metrics_of_epoch, after_epochs in *.
  now rewrite Nat.iter_succ, record_epoch_metric_trend.
Qed.

(** *** Running the loop *)

(** As long as no criterion is met the loop goes on, one recorded
    epoch per pass. *)
Lemma while_continue (t : training) (e : nat) :
  forall (n : Z) (fuel : nat) (s : State),
  (forall j, (j < e)%nat -> losses_of_epoch t j s <> []) ->
  (forall j, (j < e)%nat ->
     any_met (n + Z.of_nat j) (losses_of_epoch t j s) (stop_training (self s)) = false) ->
  while_flag (e + fuel) (body t) {| n_epoch := n; flag := true |} s =
  while_flag fuel (body t) {| n_epoch := n + Z.of_nat e; flag := true |}
    (after_epochs t e s).
Proof.
  induction e as [|e IH]; intros n fuel s Hne Hno.
  - cbn [Nat.add Z.of_nat after_epochs Nat.iter nat_rect]. now rewrite Z.add_0_r.
  - cbn [Nat.add]. rewrite while_step by reflexivity.
    unfold bind. rewrite body_spec. cbn [n_epoch flag].
    assert (H0 : (0 < S e)%nat) by lia.
    pose proof (Hne 0%nat H0) as Hl. pose proof (Hno 0%nat H0) as Hm.
    unfold losses_of_epoch, after_epochs in Hl, Hm. cbn in Hl, Hm.
    rewrite Z.add_0_r in Hm.
    destruct (epoch_losses t s) as [|l0 ls] eqn:El; [congruence|].
    rewrite scan_stop_met, Hm. cbn [andb negb].
    rewrite IH.
    + rewrite after_epochs_shift.
      now replace (n + 1 + Z.of_nat e) with (n + Z.of_nat (S e)) by lia.
    + intros j Hj. unfold losses_of_epoch. rewrite <- after_epochs_shift.
      apply Hne. lia.
    + intros j Hj. unfold losses_of_epoch. rewrite <- after_epochs_shift.
      rewrite record_epoch_stop.
      replace (n + 1 + Z.of_nat j) with (n + Z.of_nat (S j)) by lia.
      apply Hno. lia.
Qed.

(** With no criterion ever met (and no exception) the loop uses up
    any amount of fuel. *)
Lemma while_never (t : training) (stop : list PyVal) :
  (forall n losses, 1 <= n -> scan_stop n losses stop true = inr true) ->
  forall (fuel : nat) (n : Z) (s : State),
  1 <= n -> stop_training (self s) = stop ->
  while_flag fuel (body t) {| n_epoch := n; flag := true |} s =
  Timeout (after_epochs t fuel s).
Proof.
  intros Hscan. induction fuel as [|fuel IH]; intros n s Hn Hs.
  - reflexivity.
  - rewrite while_step by reflexivity. unfold bind. rewrite body_spec.
    cbn [n_epoch flag]. rewrite Hs, Hscan by assumption.
    rewrite IH; [now rewrite after_epochs_shift | lia |].
    now rewrite record_epoch_stop.
Qed.

(** An integer entry [k] at or above the counter stops the loop by
    the time the counter reaches it. *)
Lemma while_bounded (t : training) (k : Z) (d : nat) :
  forall (n : Z) (fuel : nat) (s : State),
  In k (int_entries (stop_training (self s))) ->
  n <= k -> Z.to_nat (k - n) = d -> (d < fuel)%nat ->
  let r := while_flag fuel (body t) {| n_epoch := n; flag := true |} s in
  finished r = true /\
  (length (loss_trend (self (final r))) <= length (loss_trend (self s)) + S d)%nat /\
  (forall l s', r = Val l s' -> n_epoch l <= k + 1).
Proof.
  induction d as [|d IH]; intros n fuel s Hin Hn Hd Hfuel;
    (destruct fuel as [|fuel]; [lia|]);
    cbn zeta; rewrite while_step by reflexivity;
    unfold bind; rewrite body_spec; cbn [n_epoch flag];
    destruct (scan_stop n (epoch_losses t s) (stop_training (self s)) true)
      as [e | f] eqn:Escan.
  - cbn [finished final]. rewrite record_epoch_loss_trend, length_app. cbn.
    repeat split; [lia | discriminate].
  - assert (n = k) by lia. subst n.
    rewrite (scan_stop_int_hit _ _ _ _ _ Hin Escan).
    rewrite while_done by reflexivity. cbn [finished final].
    rewrite record_epoch_loss_trend, length_app. cbn.
    repeat split; [lia|]. intros l s' H. inversion H; subst. cbn. lia.
  - cbn [finished final]. rewrite record_epoch_loss_trend, length_app. cbn.
    repeat split; [lia | discriminate].
  - destruct f.
    + assert (Hnk : n <> k).
      { intros ->. now pose proof (scan_stop_int_hit _ _ _ _ _ Hin Escan). }
      assert (Hin' : In k (int_entries (stop_training (self (record_epoch t s)))))
        by now rewrite record_epoch_stop.
      destruct (IH (n + 1) fuel (record_epoch t s) Hin') as (Hf & Hlen & Hval);
        [lia | lia | lia|].
      cbn zeta in Hf, Hlen, Hval.
      rewrite record_epoch_loss_trend, length_app in Hlen. cbn in Hlen.
      repeat split; [assumption | lia | assumption].
    + rewrite while_done by reflexivity. cbn [finished final].
      rewrite record_epoch_loss_trend, length_app. cbn.
      repeat split; [lia|]. intros l s' H. inversion H; subst. cbn. lia.
Qed.

End LoopFacts.

(** ** The claims about the training loop *)

Section LoopClaims.

Context {L : EDDL}.

(** C1.  In each of the three training modes, every epoch appends the
    losses and the metrics the library reports to [loss_trend] and
    [metric_trend] and then scans [stop_training], where an integer
    entry is met when the epoch counter equals it and a float entry
    when the first loss is strictly below it ([criterion_met]).  If
    the library reports at least one loss per epoch, no criterion is
    met in the first [e] epochs and one is met in epoch [e + 1], the
    loop returns at the end of epoch [e + 1] (given that much fuel),
    with the counter one past it and the two trends extended by
    exactly the reports of these [e + 1] epochs, in order. *)
Theorem fit_halts_at_first_met_criterion
    (t : training) (e fuel : nat) (s : State) :
  (e < fuel)%nat ->
  (forall j, (j <= e)%nat -> losses_of_epoch t j s <> []) ->
  (forall j, (j < e)%nat -> halts_after t j s = false) ->
  halts_after t e s = true ->
  train_loop fuel t s =
    Val {| n_epoch := Z.of_nat (S e) + 1; flag := false |} (after_epochs t (S e) s)
  /\ loss_trend (self (after_epochs t (S e) s)) =
     loss_trend (self s) ++ map (fun j => losses_of_epoch t j s) (seq 0 (S e))
  /\ metric_trend (self (after_epochs t (S e) s)) =
     metric_trend (self s) ++ map (fun j => metrics_of_epoch t j s) (seq 0 (S e)).
Proof.
  intros Hfuel Hne Hno Hyes.
  split; [|split; [apply after_epochs_loss_trend | apply after_epochs_metric_trend]].
  unfold train_loop, loop_entry.
  replace fuel with (e + S (fuel - S e))%nat by lia.
  rewrite while_continue.
  - rewrite while_step by reflexivity. unfold bind. rewrite body_spec.
    cbn [n_epoch flag]. rewrite after_epochs_stop.
    unfold halts_after, losses_of_epoch in Hyes.
    pose proof (Hne e (Nat.le_refl e)) as Hl. unfold losses_of_epoch in Hl.
    destruct (epoch_losses t (after_epochs t e s)) as [|l0 ls]; [congruence|].
    rewrite scan_stop_met.
    replace (1 + Z.of_nat e) with (Z.of_nat (S e)) by lia.
    rewrite Hyes. cbn [andb negb].
    rewrite while_done by reflexivity.
    unfold after_epochs. now rewrite Nat.iter_succ.
  - intros j Hj. apply Hne. lia.
  - intros j Hj. replace (1 + Z.of_nat j) with (Z.of_nat (S j)) by lia.
    now apply Hno.
Qed.

(** C3, amended.  If [stop_training] holds an integer entry that is
    at least 1, the loop of every mode comes to an end (by its flag,
    or by the exception of [losses[0]]) within as many passes as the
    largest integer entry: at most that many epochs are recorded, and
    on a normal exit the number of completed epochs, [n_epoch - 1],
    does not exceed it. *)
Theorem train_loop_ends_within_max_int
    (t : training) (s : State) (k : Z) :
  In k (int_entries (stop_training (self s))) -> 1 <= k ->
  exists kmax,
    max_int_entry (stop_training (self s)) = Some kmax /\
    forall fuel, (Z.to_nat kmax <= fuel)%nat ->
      let r := train_loop fuel t s in
      finished r = true /\
      (length (loss_trend (self (final r))) <=
         length (loss_trend (self s)) + Z.to_nat kmax)%nat /\
      (forall l s', r = Val l s' -> n_epoch l - 1 <= kmax).
Proof.
  intros Hin Hk.
  destruct (max_int_entry_bound _ _ Hin) as (kmax & Hmax & Hle).
  exists kmax. split; [assumption|]. intros fuel Hfuel.
  destruct (while_bounded t k (Z.to_nat (k - 1)) 1 fuel s Hin Hk eq_refl)
    as (Hf & Hlen & Hval); [lia|].
  cbn zeta in *. unfold train_loop, loop_entry.
  repeat split; [assumption | lia |].
  intros l s' H. specialize (Hval l s' H). lia.
Qed.

(** C4.  With an empty [stop_training] the loop of every mode never
    ends: whatever the fuel, it is still running when the fuel is
    used up, having gone through that many epochs. *)
Theorem train_loop_empty_stop_never_ends
    (t : training) (fuel : nat) (s : State) :
  stop_training (self s) = [] ->
  train_loop fuel t s = Timeout (after_epochs t fuel s).
Proof.
  intros Hs. unfold train_loop, loop_entry.
  apply (while_never t []); [reflexivity | lia | assumption].
Qed.

End LoopClaims.

(** ** Entries of other types in the stopping list *)

Section IgnoredEntries.

Context {L : EDDL}.

Lemma iter_commute (step g : State -> State) (n : nat) (s : State) :
  (forall s', step (g s') = g (step s')) ->
  Nat.iter n step (g s) = g (Nat.iter n step s).
Proof.
  intros H. induction n as [|n IH]; [reflexivity|].
  now rewrite !Nat.iter_succ, IH, H.
Qed.

(** The training commands do not look at the stopping list. *)
Lemma epoch_work_with_stop (t : training) (stop : list PyVal) (s : State) :
  epoch_work t (with_stop stop s) = with_stop stop (epoch_work t s).
Proof.
  destruct t; cbn [epoch_work]; [reflexivity| |];
    now rewrite <- iter_commute.
Qed.

Lemma epoch_losses_with_stop (t : training) (stop : list PyVal) (s : State) :
  epoch_losses t (with_stop stop s) = epoch_losses t s.
Proof. unfold epoch_losses. cbn zeta. now rewrite epoch_work_with_stop. Qed.

Lemma epoch_metrics_with_stop (t : training) (stop : list PyVal) (s : State) :
  epoch_metrics t (with_stop stop s) = epoch_metrics t s.
Proof. unfold epoch_metrics. cbn zeta. now rewrite epoch_work_with_stop. Qed.

Lemma record_epoch_with_stop (t : training) (stop : list PyVal) (s : State) :
  record_epoch t (with_stop stop s) = with_stop stop (record_epoch t s).
Proof.
  unfold record_epoch. cbn zeta.
  now rewrite epoch_losses_with_stop, epoch_metrics_with_stop, epoch_work_with_stop.
Qed.

Lemma with_stop_twice (stop stop' : list PyVal) (s : State) :
  with_stop stop (with_stop stop' s) = with_stop stop s.
Proof. reflexivity. Qed.

Lemma while_skips_entry (t : training) (l1 l2 : list PyVal) (x : PyVal) :
  isinstance_int x = false -> isinstance_float x = false ->
  forall (fuel : nat) (l : locals) (s : State),
  while_flag fuel (body t) l (with_stop (l1 ++ x :: l2) s) =
  res_with_stop (l1 ++ x :: l2)
    (while_flag fuel (body t) l (with_stop (l1 ++ l2) s)).
Proof.
  intros Hi Hf. induction fuel as [|fuel IH]; intros l s.
  - cbn [while_flag]. now destruct (flag l).
  - cbn [while_flag]. destruct (flag l) eqn:Hflag; [|reflexivity].
    unfold bind. rewrite !body_spec, !epoch_losses_with_stop.
    cbn [with_stop with_self self stop_training set_stop_training].
    rewrite (scan_stop_skip _ _ _ _ _ _ Hi Hf).
    rewrite !record_epoch_with_stop.
    destruct (scan_stop _ _ _ _); [reflexivity | apply IH].
Qed.

(** C10.  An entry of [stop_training] that is neither an integer nor
    a float is ignored in all three training modes: the loop run with
    the entry in the list is, step for step and exceptions included,
    the loop run with the entry removed (only the attribute itself
    still shows the entry), so the entry neither halts training nor
    raises. *)
Theorem train_loop_ignores_other_entries
    (t : training) (l1 l2 : list PyVal) (x : PyVal) (fuel : nat) (s : State) :
  isinstance_int x = false -> isinstance_float x = false ->
  train_loop fuel t (with_stop (l1 ++ x :: l2) s) =
  res_with_stop (l1 ++ x :: l2) (train_loop fuel t (with_stop (l1 ++ l2) s)).
Proof.
  intros Hi Hf. unfold train_loop. now apply while_skips_entry.
Qed.

End IgnoredEntries.

(** ** The parameter transfer, the transforms *)

Section TransferClaims.

Context {L : EDDL}.

(** C2, amended.  When [layers_encoder] is not empty and the trained
    autoencoder reports at least [2*len(layers_encoder) - 1]
    parameter groups, the list installed into the standalone decoder
    is one empty placeholder followed by exactly the last
    [2*len(layers_encoder) - 1] groups of the autoencoder's list, in
    order, [2*len(layers_encoder)] entries in all. *)
Theorem copy_parameters_installs_last_groups (s : State) :
  let m := length (layers_encoder (self s)) in
  let full := get_parameters (model_Autoencoder (self s)) true (lib s) in
  let installed := [] :: last_groups (2 * m - 1) full in
  (1 <= m)%nat -> (2 * m - 1 <= length full)%nat ->
  copy_parameters s =
    Val tt (with_call (C_set_parameters (model_Decoder (self s)) installed) s)
  /\ length installed = (2 * m)%nat
  /\ exists front, full = front ++ last_groups (2 * m - 1) full.
Proof.
  intros m full installed Hm Hlen. split; [|split].
  - unfold copy_parameters, bind, attr, query, call, with_call.
    cbn -[Z.mul Z.sub Z.opp Z.of_nat py_slice_from].
    fold m. fold full. rewrite py_slice_last by lia.
    replace (Z.to_nat (2 * Z.of_nat m - 1)) with (2 * m - 1)%nat by lia.
    reflexivity.
  - unfold installed. cbn [length]. rewrite last_groups_length by assumption. lia.
  - eexists. apply last_groups_suffix.
Qed.

(** C7, amended.  [inverse_transform] runs one forward pass of the
    standalone decoder, applies the inverse transform of the
    database's snapshot scaler exactly when a database is given and
    its [scaler_snapshots] is set, and then returns the ravelled,
    one-dimensional array exactly when that array has a dimension of
    size 1 (a single column or a single row), the transposed matrix
    otherwise. *)
Theorem inverse_transform_result (g : ndarray) (db : option database) (s : State) :
  let predicted_sol := rescale db (np_T (decoder_output g s)) in
  inverse_transform g db s =
    Val (if one_in_shape predicted_sol then np_ravel predicted_sol
         else np_T predicted_sol) (forwarded g s)
  /\ rescale db (np_T (decoder_output g s)) =
     match db with
     | Some {| scaler_snapshots := Some sc |} =>
         np_T (scaler_inverse_transform sc (np_T (np_T (decoder_output g s))))
     | _ => np_T (decoder_output g s)
     end
  /\ (one_in_shape predicted_sol = true ->
      is_1d (squeeze_or_transpose predicted_sol) = true)
  /\ (one_in_shape predicted_sol = false ->
      is_1d (squeeze_or_transpose predicted_sol) = is_1d predicted_sol).
Proof.
  cbn zeta. repeat split.
  - destruct db as [[[sc|]]|]; reflexivity.
  - unfold squeeze_or_transpose. intros ->. now destruct (rescale _ _).
  - unfold squeeze_or_transpose. intros ->. now destruct (rescale _ _).
Qed.

(** C8.  Neither [transform] nor [inverse_transform] changes any
    attribute of the object: the state they leave holds the same
    [self], and all they send to the library is the conversion of
    their argument and one forward pass ([predict], [forward]), no
    command that trains a model or sets its parameters. *)
Theorem transforms_leave_self_unchanged
    (X : ndarray) (scaler_red : option scaler) (db : option database) (s : State) :
  (self (final (transform X scaler_red s)) = self s /\
   exists x, calls (final (transform X scaler_red s)) =
             calls s ++ [C_fromarray (np_T X) x;
                         C_predict (model_Autoencoder (self s)) [x]]) /\
  (self (final (inverse_transform X db s)) = self s /\
   exists x, calls (final (inverse_transform X db s)) =
             calls s ++ [C_fromarray (np_T X) x;
                         C_forward (model_Decoder (self s)) [x]]).
Proof.
  split; split.
  - unfold transform, bind, Tensor_fromarray, attr, call, query, ret. cbn.
    destruct scaler_red as [sc|]; [destruct (fit_transform sc _)|]; reflexivity.
  - unfold transform, bind, Tensor_fromarray, attr, call, query, ret. cbn.
    eexists.
    destruct scaler_red as [sc|]; [destruct (fit_transform sc _)|];
      cbn; now rewrite <- app_assoc.
  - reflexivity.
  - eexists. cbn. now rewrite <- app_assoc.
Qed.

End TransferClaims.

(** ** Fine training, sequential batches *)

Section FineTraining.

Context {L : EDDL}.

Lemma calls_batch_step2 (values xbatch : tensor) (s : State) :
  calls (batch_step2 values xbatch s) =
  calls s ++ [C_next_batch [values] [xbatch];
              C_train_batch (model_Autoencoder (self s)) [xbatch] [xbatch]].
Proof. cbn. now rewrite <- app_assoc. Qed.

(** One epoch of the second mode: a reset, then [num_batches] times a
    [next_batch] into the buffer followed by a [train_batch] with the
    buffer as input and as target. *)
Lemma fine_1_epoch_calls (values xbatch : tensor) (num_batches : Z) (s : State) :
  calls (epoch_work (Fine_1 values num_batches xbatch) s) =
  calls s ++
  C_reset_loss (model_Autoencoder (self s)) ::
  concat (repeat [C_next_batch [values] [xbatch];
                  C_train_batch (model_Autoencoder (self s)) [xbatch] [xbatch]]
            (Z.to_nat num_batches)).
Proof.
  cbn [epoch_work]. induction (Z.to_nat num_batches) as [|n IH].
  - reflexivity.
  - rewrite Nat.iter_succ, calls_batch_step2, IH.
    rewrite self_iter by reflexivity. cbn [with_call self].
    replace (S n) with (n + 1)%nat by lia.
    rewrite repeat_app, concat_app. cbn [repeat concat].
    rewrite app_nil_r, <- app_assoc. reflexivity.
Qed.

Lemma fine_1_train_batch_count (values xbatch : tensor) (num_batches : Z) (s : State) :
  length (filter is_train_batch (calls (epoch_work (Fine_1 values num_batches xbatch) s))) =
  (length (filter is_train_batch (calls s)) + Z.to_nat num_batches)%nat.
Proof.
  rewrite fine_1_epoch_calls, filter_app, length_app. f_equal.
  cbn [filter is_train_batch].
  induction (Z.to_nat num_batches) as [|n IH]; [reflexivity|].
  cbn [repeat concat app filter is_train_batch length]. now rewrite IH.
Qed.

(** The preamble of the second mode: the number of batches is
    [values.shape[0] // batch_size], and the buffer has 3067 columns
    whatever the shape of [values]. *)
Lemma train_fine_1 (fuel : nat) (values : tensor) (s0 : Z) (s : State) :
  training_type (self s) = 2 ->
  py_index (tshape values) 0 = inr s0 ->
  batch_size (self s) <> 0 ->
  let xbatch := {| tid := fresh s; tshape := [batch_size (self s); 3067] |} in
  train fuel values s =
  bind (train_loop fuel (Fine_1 values (s0 / batch_size (self s)) xbatch))
       (fun _ => ret tt)
       {| self := self s;
          lib := exec (C_Tensor [batch_size (self s); 3067] xbatch) (lib s);
          calls := calls s ++ [C_Tensor [batch_size (self s); 3067] xbatch];
          fresh := S (fresh s) |}.
Proof.
  intros Ht Hs0 Hbs. cbn zeta.
  unfold train. unfold bind at 1. unfold attr at 1. rewrite Ht. cbn [Z.eqb Pos.eqb].
  unfold bind at 1. unfold attr at 1. rewrite Ht. cbn [Z.eqb Pos.eqb].
  unfold bind at 1. rewrite Hs0. unfold lift at 1.
  unfold bind at 1. unfold attr at 1.
  unfold bind at 1. unfold py_floordiv.
  apply Z.eqb_neq in Hbs. rewrite Hbs. unfold lift at 1.
  reflexivity.
Qed.

(** The first and third modes: the loop is entered as it stands,
    or after the same floor division. *)
Lemma train_coarse (fuel : nat) (values : tensor) (s : State) :
  training_type (self s) = 1 ->
  train fuel values s =
  bind (train_loop fuel (Coarse values)) (fun _ => ret tt) s.
Proof.
  intros Ht. unfold train. unfold bind at 1. unfold attr at 1.
  now rewrite Ht.
Qed.

Lemma train_fine_2 (fuel : nat) (values : tensor) (s0 : Z) (s : State) :
  training_type (self s) = 3 ->
  py_index (tshape values) 0 = inr s0 ->
  batch_size (self s) <> 0 ->
  train fuel values s =
  bind (train_loop fuel (Fine_2 values s0 (s0 / batch_size (self s))))
       (fun _ => ret tt) s.
Proof.
  intros Ht Hs0 Hbs.
  unfold train. unfold bind at 1. unfold attr at 1. rewrite Ht. cbn [Z.eqb Pos.eqb].
  unfold bind at 1. unfold attr at 1. rewrite Ht. cbn [Z.eqb Pos.eqb].
  unfold bind at 1. unfold attr at 1. rewrite Ht. cbn [Z.eqb Pos.eqb].
  unfold bind at 1. rewrite Hs0. unfold lift at 1.
  unfold bind at 1. unfold attr at 1.
  unfold bind at 1. unfold py_floordiv.
  apply Z.eqb_neq in Hbs. rewrite Hbs. unfold lift at 1.
  reflexivity.
Qed.

(** A zero [batch_size] stops the second and third modes before
    their loop. *)
Lemma train_zero_batch_size (fuel : nat) (values : tensor) (s0 : Z) (s : State) :
  training_type (self s) = 2 \/ training_type (self s) = 3 ->
  py_index (tshape values) 0 = inr s0 ->
  batch_size (self s) = 0 ->
  train fuel values s = Exc ZeroDivisionError s.
Proof.
  intros [Ht | Ht] Hs0 Hbs; unfold train.
  - unfold bind at 1. unfold attr at 1. rewrite Ht. cbn [Z.eqb Pos.eqb].
    unfold bind at 1. unfold attr at 1. rewrite Ht. cbn [Z.eqb Pos.eqb].
    unfold bind at 1. rewrite Hs0. unfold lift at 1.
    unfold bind at 1. unfold attr at 1.
    unfold bind at 1. unfold py_floordiv. now rewrite Hbs.
  - unfold bind at 1. unfold attr at 1. rewrite Ht. cbn [Z.eqb Pos.eqb].
    unfold bind at 1. unfold attr at 1. rewrite Ht. cbn [Z.eqb Pos.eqb].
    unfold bind at 1. unfold attr at 1. rewrite Ht. cbn [Z.eqb Pos.eqb].
    unfold bind at 1. rewrite Hs0. unfold lift at 1.
    unfold bind at 1. unfold attr at 1.
    unfold bind at 1. unfold py_floordiv. now rewrite Hbs.
Qed.

(** [fit] is: convert, build, train, transfer; a loop that does not
    end keeps [fit] from returning. *)
Lemma fit_timeout (fuel : nat) (a : ndarray) (s s2 s3 : State) :
  _build_model {| tid := fresh s; tshape := np_shape (np_T a) |}
    (final (Tensor_fromarray (np_T a) s)) = Val tt s2 ->
  train fuel {| tid := fresh s; tshape := np_shape (np_T a) |} s2 = Timeout s3 ->
  fit fuel a s = Timeout s3.
Proof.
  intros Hb Ht. unfold fit. unfold bind at 1. cbn [Tensor_fromarray].
  unfold bind at 1. cbn [final Tensor_fromarray] in Hb. rewrite Hb.
  unfold bind at 1. now rewrite Ht.
Qed.

End FineTraining.

(** ** The model builder *)

Section Builder.

Context {L : EDDL}.

(** Both nested block functions end in a bare dense layer. *)
Lemma EncoderBlock_ends_dense (o : AE_EDDL) (widths : list Z) (lay out : layer) :
  EncoderBlock o widths lay = inr out -> exists p w, out = Dense p w.
Proof.
  unfold EncoderBlock, last_dense. intros H.
  destruct (block_loop _ _ _ _); [discriminate|].
  destruct (py_index widths (-1)); [discriminate|].
  inversion H. now eexists _, _.
Qed.

Lemma DecoderBlock_ends_dense (o : AE_EDDL) (widths : list Z) (lay out : layer) :
  DecoderBlock o widths lay = inr out -> exists p w, out = Dense p w.
Proof.
  unfold DecoderBlock, last_dense. intros H.
  destruct (block_loop _ _ _ _); [discriminate|].
  destruct (py_index widths (-1)); [discriminate|].
  inversion H. now eexists _, _.
Qed.

(** The decoder block is the encoder block run over the decoder's
    widths: [function_decoder] is never read. *)
Lemma DecoderBlock_is_EncoderBlock (o : AE_EDDL) (widths : list Z) (lay : layer) :
  DecoderBlock o widths lay = EncoderBlock o widths lay.
Proof. reflexivity. Qed.

(** [_build_model] works on copies: whatever it returns or raises,
    the configured lists are as they were. *)
Lemma build_model_keeps_configuration (values : tensor) (s : State) :
  let o' := self (final (_build_model values s)) in
  layers_encoder o' = layers_encoder (self s) /\
  layers_decoder o' = layers_decoder (self s) /\
  function_encoder o' = function_encoder (self s) /\
  function_decoder o' = function_decoder (self s) /\
  stop_training o' = stop_training (self s).
Proof.
  cbn zeta. unfold _build_model, bind, attr, lift, modify_self, call.
  repeat match goal with
         | |- context [match ?x with inl _ => _ | inr _ => _ end] =>
             destruct x; cbn [final self]
         end;
    cbn; repeat split.
Qed.

End Builder.

(** ** Runs on the small library *)

(** C1, at a run: tolerance 0.375 and a budget of 5; the losses are
    0.5 and then 0.25, so the loop returns after the second epoch. *)
Lemma fit_halts_at_first_met_criterion_witness :
  train_loop (L := Toy.eddl) 5 (Coarse Toy.values)
    (Toy.built (Toy.ae (inr [PyFloat 0.375; PyInt 5]) 2 1)) =
  Val {| n_epoch := 3; flag := false |}
    (after_epochs (Coarse Toy.values) 2
       (Toy.built (Toy.ae (inr [PyFloat 0.375; PyInt 5]) 2 1))).
Proof.
  refine (proj1 (fit_halts_at_first_met_criterion (L := Toy.eddl)
                   (Coarse Toy.values) 1 5 _ _ _ _ _)).
  - lia.
  - intros j Hj. destruct j as [|[|j]]; [vm_compute; discriminate ..|lia].
  - intros j Hj. destruct j as [|j]; [vm_compute; reflexivity | lia].
  - vm_compute. reflexivity.
Defined.

(** C3 as stated fails: with [stop_training = [0]] there is an integer
    entry, its maximum is 0, and neither the loop nor [fit] ever comes
    to an end. *)
Lemma train_loop_int_zero_runs_forever :
  max_int_entry [PyInt 0] = Some 0 /\
  forall fuel,
    finished (fit (L := Toy.eddl) fuel (Toy.snapshots 6 4)
                (Toy.start (Toy.ae (inl (PyInt 0)) 2 1))) = false.
Proof.
  split; [reflexivity|]. intros fuel.
  rewrite (fit_timeout (L := Toy.eddl) fuel _ _
             (Toy.built (Toy.ae (inl (PyInt 0)) 2 1))
             (after_epochs (Coarse Toy.values) fuel
                (Toy.built (Toy.ae (inl (PyInt 0)) 2 1)))).
  - reflexivity.
  - vm_compute. reflexivity.
  - change {| tid := _; tshape := _ |} with Toy.values.
    rewrite train_coarse by reflexivity.
    unfold bind, train_loop, loop_entry.
    rewrite (while_never _ [PyInt 0]); [reflexivity | | lia | reflexivity].
    intros n losses Hn. cbn.
    replace (n =? 0) with false; [reflexivity|].
    symmetry. apply Z.eqb_neq. lia.
Qed.

(** C3, amended, at a run: entries 0, 3 and a tolerance. *)
Lemma train_loop_ends_within_max_int_witness :
  exists kmax,
    max_int_entry [PyInt 0; PyInt 3; PyFloat 0.0625] = Some kmax /\
    forall fuel, (Z.to_nat kmax <= fuel)%nat ->
      let r := train_loop (L := Toy.eddl) fuel (Fine_2 Toy.values 4 2)
                 (Toy.built (Toy.ae (inr [PyInt 0; PyInt 3; PyFloat 0.0625]) 2 3)) in
      finished r = true /\
      (length (loss_trend (self (final r))) <= 0 + Z.to_nat kmax)%nat /\
      (forall l s', r = Val l s' -> n_epoch l - 1 <= kmax).
Proof.
  refine (train_loop_ends_within_max_int (L := Toy.eddl) (Fine_2 Toy.values 4 2)
            (Toy.built (Toy.ae (inr [PyInt 0; PyInt 3; PyFloat 0.0625]) 2 3)) 3 _ _).
  - vm_compute. right. left. reflexivity.
  - lia.
Defined.

(** C4, at a run of the second mode. *)
Lemma train_loop_empty_stop_never_ends_witness :
  train_loop (L := Toy.eddl) 7
    (Fine_1 Toy.values 2 {| tid := 1; tshape := [2; 3067] |})
    (Toy.built (Toy.ae (inr []) 2 2)) =
  Timeout (after_epochs (Fine_1 Toy.values 2 {| tid := 1; tshape := [2; 3067] |}) 7
             (Toy.built (Toy.ae (inr []) 2 2))).
Proof.
  refine (train_loop_empty_stop_never_ends (L := Toy.eddl) _ 7 _ _).
  reflexivity.
Defined.

(** C10, at a run: a string between an integer and a float. *)
Lemma train_loop_ignores_other_entries_witness :
  train_loop (L := Toy.eddl) 6 (Coarse Toy.values)
    (with_stop ([PyInt 3] ++ PyStr "tol" :: [PyFloat 0.375])
       (Toy.built (Toy.ae (inr []) 2 1))) =
  res_with_stop ([PyInt 3] ++ PyStr "tol" :: [PyFloat 0.375])
    (train_loop 6 (Coarse Toy.values)
       (with_stop ([PyInt 3] ++ [PyFloat 0.375])
          (Toy.built (Toy.ae (inr []) 2 1)))).
Proof.
  refine (train_loop_ignores_other_entries (L := Toy.eddl) (Coarse Toy.values)
            [PyInt 3] [PyFloat 0.375] (PyStr "tol") 6 _ _ _); reflexivity.
Defined.

(** C2, amended, at a run: two encoder layers, an autoencoder of seven
    layers; the decoder receives a placeholder and the last three
    groups. *)
Lemma copy_parameters_installs_last_groups_witness :
  length ([] :: last_groups 3
            (@get_parameters Toy.eddl
               (model_Autoencoder (self (Toy.trained 6))) true
               (lib (Toy.trained 6)))) = 4%nat.
Proof.
  pose proof (copy_parameters_installs_last_groups (L := Toy.eddl) (Toy.trained 6)) as H.
  cbn zeta in H.
  assert (H1 : (1 <= length (layers_encoder (self (Toy.trained 6))))%nat)
    by (vm_compute; lia).
  assert (H2 : (2 * length (layers_encoder (self (Toy.trained 6))) - 1 <=
                length (@get_parameters Toy.eddl
                          (model_Autoencoder (self (Toy.trained 6))) true
                          (lib (Toy.trained 6))))%nat)
    by (vm_compute; lia).
  exact (proj1 (proj2 (H H1 H2))).
Defined.

(** C2 as stated fails: with an empty [layers_encoder] the slice is
    [full[1:]], and the installed list has three entries where the
    claim counts [2 * 0]. *)
Lemma copy_parameters_empty_encoder :
  exists md ps s',
    fit (L := Toy.eddl) 3 (Toy.snapshots 6 4) (Toy.start Toy.ae_empty) = Val tt s' /\
    last (calls s') (C_summary None) = C_set_parameters md ps /\
    layers_encoder (self s') = [] /\
    length (@get_parameters Toy.eddl (model_Autoencoder (self s')) true (lib s')) = 3%nat /\
    length ps = 3%nat /\
    length ps <> (2 * length (layers_encoder (self s')))%nat.
Proof.
  do 3 eexists. split; [vm_compute; reflexivity|].
  repeat split; cbn; discriminate.
Qed.

(** C5, at the failing input: a matrix of four samples and six
    features, [batch_size = 2], [training_type = 2], one epoch.  The
    epoch makes [4 // 2] calls of [train_batch], each with the buffer as
    input and as target, but the buffer has shape [2, 3067] while the
    dataset has shape [4, 6] and the autoencoder's input layer has
    width 6. *)
Theorem fine_1_batches_have_3067_columns :
  exists s' ma xbatch out,
    fit (L := Toy.eddl) 3 (Toy.snapshots 6 4)
      (Toy.start (Toy.ae (inl (PyInt 1)) 2 2)) = Val tt s' /\
    filter is_train_batch (calls s') =
      [C_train_batch ma [xbatch] [xbatch]; C_train_batch ma [xbatch] [xbatch]] /\
    filter is_next_batch (calls s') =
      [C_next_batch [Toy.values] [xbatch]; C_next_batch [Toy.values] [xbatch]] /\
    tshape Toy.values = [4; 6] /\
    tshape xbatch = [2; 3067] /\
    ma = Some {| m_in := [Input 1 [6]]; m_out := out |}.
Proof.
  do 4 eexists. split; [vm_compute; reflexivity|].
  repeat split.
Qed.

(** C6, at the failing input: encoder activations [Sigmoid, Tanh],
    decoder activations [ReLu, Softplus], a matrix of six features.
    The configured lists are left as they are and the last layer of
    each graph is a bare dense layer, but the non-final layer of the
    decoder is wrapped in [function_encoder[1]], in the autoencoder and
    in the standalone decoder alike; no entry of [function_decoder]
    appears in either graph. *)
Theorem decoder_block_uses_function_encoder :
  exists s',
    _build_model (L := Toy.eddl) Toy.values (Toy.start Toy.ae_lists) = Val tt s' /\
    layers_encoder (self s') = [4; 2] /\
    layers_decoder (self s') = [2; 4] /\
    function_encoder (self s') = [Sigmoid; Tanh] /\
    function_decoder (self s') = [ReLu; Softplus] /\
    encoder (self s') = Some (Dense (Activation Tanh (Dense (Input 1 [6]) 4)) 2) /\
    decoder (self s') =
      Some (Dense (Activation Tanh
                     (Dense (Dense (Activation Tanh (Dense (Input 1 [6]) 4)) 2) 4)) 6) /\
    decoder2 (self s') = Some (Dense (Activation Tanh (Dense (Input 2 [2]) 4)) 6) /\
    option_map activations (decoder2 (self s')) = Some [Tanh].
Proof.
  eexists. split; [vm_compute; reflexivity|].
  repeat split.
Qed.

(** C7, amended, at a run: three latent samples, a database with a
    scaler, a decoder of six outputs; the scaler is applied and the
    3-by-6 matrix comes back two-dimensional. *)
Lemma inverse_transform_result_witness :
  inverse_transform (L := Toy.eddl) (Toy.snapshots 2 3)
    (Some (mkDatabase (L := Toy.eddl) (Some 2%float))) (Toy.trained 6) =
  Val (Arr2 3 6 (repeat (repeat 2%float 6) 3))
    (forwarded (Toy.snapshots 2 3) (Toy.trained 6)).
Proof.
  exact (proj1 (inverse_transform_result (L := Toy.eddl) (Toy.snapshots 2 3)
                  (Some (mkDatabase (L := Toy.eddl) (Some 2%float))) (Toy.trained 6))).
Defined.

(** C7 as stated fails.  With a decoder of one output and three
    samples, [predicted_sol] has shape [1, 3], a single row of three
    columns, and is ravelled all the same.  Reading "the decoded
    result" as the decoder's own output does not help: with six outputs
    and one sample that output has shape [1, 6], again not a single
    column, and the result is one-dimensional. *)
Lemma inverse_transform_ravels_single_row :
  (exists out s',
     inverse_transform (L := Toy.eddl) (Toy.snapshots 2 3) None (Toy.trained 1) =
       Val out s' /\
     is_1d out = true /\
     np_shape (rescale (L := Toy.eddl) None
                 (np_T (decoder_output (Toy.snapshots 2 3) (Toy.trained 1)))) =
       [1; 3]) /\
  (exists out s',
     inverse_transform (L := Toy.eddl) (Toy.snapshots 2 1) None (Toy.trained 6) =
       Val out s' /\
     is_1d out = true /\
     np_shape (decoder_output (Toy.snapshots 2 1) (Toy.trained 6)) = [1; 6]).
Proof.
  split; do 2 eexists; (split; [vm_compute; reflexivity|]); split; reflexivity.
Qed.

(** C9.  The [Database] constructor succeeds on no arguments, with an
    empty container, and on two matrices with the same number of
    samples (first dimension), which it then holds; it raises
    [RuntimeError] on any two matrices whose numbers of samples differ,
    and on any single matrix, whichever of the two arguments it is
    given as.  The constructions of the test file are instances: no
    arguments; shapes (10,3) and (10,8); shapes (9,3) and (10,8); one
    5-by-5 matrix. *)
Theorem Database_init_outcomes :
  Database_init None None = inr {| db_parameters := None; db_snapshots := None |} /\
  (forall p s, fst p = fst s ->
     Database_init (Some p) (Some s) =
       inr {| db_parameters := Some p; db_snapshots := Some s |}) /\
  (forall p s, fst p <> fst s ->
     Database_init (Some p) (Some s) = inl RuntimeError) /\
  (forall m, Database_init (Some m) None = inl RuntimeError) /\
  (forall m, Database_init None (Some m) = inl RuntimeError) /\
  (forall p s, (exists db, Database_init p s = inr db) <->
     match p, s with
     | None, None => True
     | Some p', Some s' => fst p' = fst s'
     | _, _ => False
     end).
Proof.
  split; [reflexivity|]. split; [|split; [|split; [|split]]].
  - intros p s H. unfold Database_init.
    apply Z.eqb_eq in H. now rewrite H.
  - intros p s H. unfold Database_init.
    apply Z.eqb_neq in H. now rewrite H.
  - reflexivity.
  - reflexivity.
  - intros [p|] [s|]; cbn [Database_init].
    + destruct (fst p =? fst s) eqn:E.
      * apply Z.eqb_eq in E. split; [intros _; exact E | intros _; now eexists].
      * apply Z.eqb_neq in E. split; [intros [db H]; discriminate | contradiction].
    + split; [intros [db H]; discriminate | contradiction].
    + split; [intros [db H]; discriminate | contradiction].
    + split; [trivial | intros _; now eexists].
Qed.

(** The four constructions of [tests/test_database.py]. *)
Lemma database_constructor_cases :
  Database_init None None = inr {| db_parameters := None; db_snapshots := None |} /\
  Database_init (Some (10, 3)) (Some (10, 8)) =
    inr {| db_parameters := Some (10, 3); db_snapshots := Some (10, 8) |} /\
  Database_init (Some (9, 3)) (Some (10, 8)) = inl RuntimeError /\
  Database_init (Some (5, 5)) None = inl RuntimeError.
Proof.
  destruct Database_init_outcomes as (Hnone & Hsame & Hdiff & Hone & _).
  split; [exact Hnone|]. split; [|split].
  - apply (Hsame (10, 3) (10, 8)). reflexivity.
  - apply (Hdiff (9, 3) (10, 8)). cbn. lia.
  - apply (Hone (5, 5)).
Defined.


(** * Further properties of the training loop *)


Lemma ltb_nan_l (x : float) : PrimFloat.ltb nan x = false.
Proof. rewrite ltb_spec. reflexivity. Qed.

(** With no loss reported, a float entry anywhere in the list makes the
    scan raise, whatever the entries before it did to the flag. *)
Lemma scan_stop_empty_losses (n : Z) (stop : list PyVal) (f : bool) :
  existsb isinstance_float stop = true ->
  scan_stop n [] stop f = inl IndexError.
Proof.
  revert f. induction stop as [|c rest IH]; intros f H; [discriminate|].
  cbn [existsb scan_stop] in *.
  destruct c; cbn [isinstance_int isinstance_float] in *;
    try (now apply IH).
  now rewrite py_index_nil.
Qed.

(** Without float entries, a criterion is met exactly when the counter
    is one of the integer entries. *)
Lemma any_met_no_float (n : Z) (losses : list float) (stop : list PyVal) :
  forallb (fun c => negb (isinstance_float c)) stop = true ->
  any_met n losses stop = existsb (Z.eqb n) (int_entries stop).
Proof.
  unfold any_met, int_entries.
  induction stop as [|c rest IH]; intros H; [reflexivity|].
  cbn [forallb] in H. apply andb_true_iff in H. destruct H as [Hc Hrest].
  destruct c; cbn in Hc |- *; try discriminate; now rewrite IH.
Qed.

(** Without integer entries, a NaN first loss meets none. *)
Lemma any_met_nan (n : Z) (ls : list float) (stop : list PyVal) :
  forallb (fun c => negb (isinstance_int c)) stop = true ->
  any_met n (nan :: ls) stop = false.
Proof.
  unfold any_met.
  induction stop as [|c rest IH]; intros H; [reflexivity|].
  cbn [forallb] in H. apply andb_true_iff in H. destruct H as [Hc Hrest].
  destruct c; cbn in Hc |- *; try discriminate; try (now apply IH).
  rewrite ltb_nan_l. now apply IH.
Qed.

Lemma any_met_perm (n : Z) (losses : list float) (stop stop' : list PyVal) :
  Permutation stop stop' -> any_met n losses stop = any_met n losses stop'.
Proof.
  unfold any_met. induction 1 as [|x l l' _ IH|x y l|l l' l'' _ IH1 _ IH2]; cbn.
  - reflexivity.
  - now rewrite IH.
  - now rewrite !orb_assoc, (orb_comm (criterion_met n losses y)).
  - now rewrite IH1.
Qed.

Lemma existsb_perm {A : Type} (f : A -> bool) (l l' : list A) :
  Permutation l l' -> existsb f l = existsb f l'.
Proof.
  induction 1 as [|x l l' _ IH|x y l|l l' l'' _ IH1 _ IH2]; cbn.
  - reflexivity.
  - now rewrite IH.
  - now rewrite !orb_assoc, (orb_comm (f y)).
  - now rewrite IH1.
Qed.

Lemma no_float_or_some (stop : list PyVal) :
  existsb isinstance_float stop = false ->
  forallb (fun c => negb (isinstance_float c)) stop = true.
Proof.
  induction stop as [|c rest IH]; [reflexivity|]. cbn.
  destruct (isinstance_float c); [discriminate|]. exact IH.
Qed.

(** The order of the entries of [stop_training] does not matter to the
    scan: a reordered list gives the same flag, or the same
    exception. *)
Theorem scan_stop_order_irrelevant
    (n : Z) (losses : list float) (stop stop' : list PyVal) (f : bool) :
  Permutation stop stop' ->
  scan_stop n losses stop f = scan_stop n losses stop' f.
Proof.
  intros HP. destruct losses as [|l0 ls].
  - destruct (existsb isinstance_float stop) eqn:E.
    + rewrite !scan_stop_empty_losses; [reflexivity | | assumption].
      now rewrite <- (existsb_perm _ _ _ HP).
    + rewrite !scan_stop_no_float.
      * now rewrite (any_met_perm _ _ _ _ HP).
      * apply no_float_or_some. now rewrite <- (existsb_perm _ _ _ HP).
      * now apply no_float_or_some.
  - rewrite !scan_stop_met. now rewrite (any_met_perm _ _ _ _ HP).
Qed.

Section MoreLoopFacts.

Context {L : EDDL}.

Lemma clear_trends_record_epoch (t : training) (s : State) :
  clear_trends (self (record_epoch t s)) = clear_trends (self s).
Proof.
  unfold record_epoch. cbn [self].
  unfold clear_trends, append_metric_trend, append_loss_trend. cbn.
  now rewrite self_epoch_work.
Qed.

Lemma while_frame (t : training) (fuel : nat) :
  forall (l : locals) (s : State),
  clear_trends (self (final (while_flag fuel (body t) l s))) = clear_trends (self s).
Proof.
  induction fuel as [|fuel IH]; intros l s; cbn [while_flag];
    destruct (flag l); try reflexivity.
  unfold bind. rewrite body_spec.
  destruct (scan_stop _ _ _ _).
  - cbn [final]. apply clear_trends_record_epoch.
  - rewrite IH. apply clear_trends_record_epoch.
Qed.

(** The loop goes on as long as the scan leaves the flag up. *)
Lemma while_continue_scan (t : training) (e : nat) :
  forall (n : Z) (fuel : nat) (s : State),
  (forall j, (j < e)%nat ->
     scan_stop (n + Z.of_nat j) (losses_of_epoch t j s) (stop_training (self s)) true
     = inr true) ->
  while_flag (e + fuel) (body t) {| n_epoch := n; flag := true |} s =
  while_flag fuel (body t) {| n_epoch := n + Z.of_nat e; flag := true |}
    (after_epochs t e s).
Proof.
  induction e as [|e IH]; intros n fuel s Hscan.
  - cbn [Nat.add Z.of_nat after_epochs Nat.iter nat_rect]. now rewrite Z.add_0_r.
  - cbn [Nat.add]. rewrite while_step by reflexivity.
    unfold bind. rewrite body_spec. cbn [n_epoch flag].
    assert (H0 : (0 < S e)%nat) by lia.
    pose proof (Hscan 0%nat H0) as Hm.
    unfold losses_of_epoch, after_epochs in Hm. cbn in Hm.
    rewrite Z.add_0_r in Hm. rewrite Hm.
    rewrite IH.
    + rewrite after_epochs_shift.
      now replace (n + 1 + Z.of_nat e) with (n + Z.of_nat (S e)) by lia.
    + intros j Hj. unfold losses_of_epoch. rewrite <- after_epochs_shift.
      rewrite record_epoch_stop.
      replace (n + 1 + Z.of_nat j) with (n + Z.of_nat (S j)) by lia.
      apply Hscan. lia.
Qed.

(** The two trends grow together, one entry each per pass, however the
    loop ends; on a normal exit the counter has grown by as much. *)
Lemma while_trends (t : training) (fuel : nat) :
  forall (l : locals) (s : State),
  let r := while_flag fuel (body t) l s in
  exists ls ms,
    loss_trend (self (final r)) = loss_trend (self s) ++ ls /\
    metric_trend (self (final r)) = metric_trend (self s) ++ ms /\
    length ls = length ms /\ (length ls <= fuel)%nat /\
    (forall l' s', r = Val l' s' ->
       n_epoch l' = n_epoch l + Z.of_nat (length ls) /\ flag l' = false) /\
    (forall s', r = Timeout s' -> length ls = fuel).
Proof.
  induction fuel as [|fuel IH]; intros l s; cbn zeta; cbn [while_flag];
    destruct (flag l) eqn:Hflag.
  - exists [], []. cbn. rewrite !app_nil_r.
    repeat split; try lia; discriminate.
  - exists [], []. cbn. rewrite !app_nil_r.
    repeat split; try lia; try discriminate; inversion H; subst; [lia | assumption].
  - unfold bind. rewrite body_spec.
    destruct (scan_stop _ _ _ _) as [e | f].
    + exists [epoch_losses t s], [epoch_metrics t s]. cbn [final].
      rewrite record_epoch_loss_trend, record_epoch_metric_trend. cbn.
      repeat split; try lia; discriminate.
    + destruct (IH {| n_epoch := n_epoch l + 1; flag := f |} (record_epoch t s))
        as (ls & ms & Hl & Hm & Hlen & Hle & Hval & Hto).
      cbn zeta in *.
      exists (epoch_losses t s :: ls), (epoch_metrics t s :: ms).
      rewrite Hl, Hm, record_epoch_loss_trend, record_epoch_metric_trend.
      rewrite <- !app_assoc. cbn [app length].
      repeat split; try lia.
      * destruct (Hval _ _ H) as [Hn _]. cbn [n_epoch] in Hn. lia.
      * now destruct (Hval _ _ H).
      * intros s' H. specialize (Hto s' H). lia.
  - exists [], []. cbn. rewrite !app_nil_r.
    repeat split; try lia; try discriminate; inversion H; subst; [lia | assumption].
Qed.

End MoreLoopFacts.

Section MoreLoopClaims.

Context {L : EDDL}.

Lemma final_bind_ret (r : Res locals) :
  final (match r with
         | Val _ s' => ret tt s'
         | Exc e s' => Exc e s'
         | Timeout s' => Timeout s'
         end) = final r.
Proof. now destruct r. Qed.

(** The training branch touches the two trends only. *)
Lemma train_frame (fuel : nat) (values : tensor) (s : State) :
  clear_trends (self (final (train fuel values s))) = clear_trends (self s).
Proof.
  unfold train. unfold bind at 1. unfold attr at 1.
  destruct (training_type (self s) =? 1).
  { unfold bind. rewrite final_bind_ret. apply while_frame. }
  unfold bind at 1. unfold attr at 1.
  destruct (training_type (self s) =? 2).
  { unfold bind at 1. destruct (py_index (tshape values) 0) as [e | s0];
      [reflexivity|]. unfold lift at 1.
    unfold bind at 1. unfold attr at 1. unfold bind at 1.
    destruct (py_floordiv s0 (batch_size (self s))) as [e | nb];
      [reflexivity|]. unfold lift at 1.
    unfold bind at 1. unfold attr at 1. unfold bind at 1.
    cbn [Tensor_new]. unfold bind. rewrite final_bind_ret.
    unfold train_loop. now rewrite while_frame. }
  unfold bind at 1. unfold attr at 1.
  destruct (training_type (self s) =? 3); [|reflexivity].
  unfold bind at 1. destruct (py_index (tshape values) 0) as [e | s0];
    [reflexivity|]. unfold lift at 1.
  unfold bind at 1. unfold attr at 1. unfold bind at 1.
  destruct (py_floordiv s0 (batch_size (self s))) as [e | nb];
    [reflexivity|]. unfold lift at 1.
  unfold bind. rewrite final_bind_ret. apply while_frame.
Qed.

(** Whatever the mode, the fuel and the way it ends (return, exception
    of the preamble or of the scan, loop still running), the training
    branch of [fit], and each of its three loops, changes no attribute
    of the object other than [loss_trend] and [metric_trend]. *)
Theorem train_changes_only_trends (fuel : nat) (values : tensor) (s : State) :
  clear_trends (self (final (train fuel values s))) = clear_trends (self s) /\
  forall t, clear_trends (self (final (train_loop fuel t s))) = clear_trends (self s).
Proof.
  split.
  - apply train_frame.
  - intros t. unfold train_loop. apply while_frame.
Qed.

(** [loss_trend] and [metric_trend] are only ever appended to, and by
    the same number of entries (one each per pass), also when the loop
    ends with an exception or is still running; on a normal exit the
    flag is down and [n_epoch - 1] is that number. *)
Theorem train_loop_trends_grow_together (t : training) (fuel : nat) (s : State) :
  exists ls ms,
    loss_trend (self (final (train_loop fuel t s))) = loss_trend (self s) ++ ls /\
    metric_trend (self (final (train_loop fuel t s))) = metric_trend (self s) ++ ms /\
    length ls = length ms /\ (length ls <= fuel)%nat /\
    (forall l' s', train_loop fuel t s = Val l' s' ->
       n_epoch l' - 1 = Z.of_nat (length ls) /\ flag l' = false).
Proof.
  destruct (while_trends t fuel loop_entry s)
    as (ls & ms & Hl & Hm & Hlen & Hle & Hval & _).
  cbn zeta in *. exists ls, ms. unfold train_loop.
  repeat split; try assumption.
  - destruct (Hval _ _ H) as [Hn _]. unfold loop_entry in Hn.
    cbn [n_epoch] in Hn. lia.
  - now destruct (Hval _ _ H).
Qed.

(** The loop ends only on a met criterion: while the library reports a
    loss and no criterion is met, the loop is still running, one
    recorded epoch per pass. *)
Theorem train_loop_runs_while_unmet (t : training) (e : nat) (s : State) :
  (forall j, (j < e)%nat -> losses_of_epoch t j s <> []) ->
  (forall j, (j < e)%nat -> halts_after t j s = false) ->
  train_loop e t s = Timeout (after_epochs t e s).
Proof.
  intros Hne Hno. unfold train_loop, loop_entry.
  replace e with (e + 0)%nat at 1 by lia.
  rewrite while_continue; [reflexivity | assumption |].
  intros j Hj. replace (1 + Z.of_nat j) with (Z.of_nat (S j)) by lia.
  now apply Hno.
Qed.

(** With integer entries only (no float), training runs for exactly as
    many epochs as the least entry that is at least 1, whatever the
    library reports. *)
Theorem train_loop_int_only_runs_least_entry
    (t : training) (s : State) (k : Z) (fuel : nat) :
  forallb (fun c => negb (isinstance_float c)) (stop_training (self s)) = true ->
  In k (int_entries (stop_training (self s))) -> 1 <= k ->
  (forall j, In j (int_entries (stop_training (self s))) -> 1 <= j -> k <= j) ->
  (Z.to_nat k <= fuel)%nat ->
  train_loop fuel t s =
  Val {| n_epoch := k + 1; flag := false |} (after_epochs t (Z.to_nat k) s).
Proof.
  intros Hnf Hin Hk Hleast Hfuel. unfold train_loop, loop_entry.
  replace fuel with ((Z.to_nat k - 1) + S (fuel - Z.to_nat k))%nat by lia.
  rewrite while_continue_scan.
  - rewrite while_step by reflexivity. unfold bind. rewrite body_spec.
    cbn [n_epoch flag]. rewrite after_epochs_stop.
    rewrite scan_stop_no_float, any_met_no_float by assumption.
    replace (1 + Z.of_nat (Z.to_nat k - 1)) with k by lia.
    assert (Hex : existsb (Z.eqb k) (int_entries (stop_training (self s))) = true).
    { apply existsb_exists. exists k. split; [assumption | apply Z.eqb_refl]. }
    rewrite Hex. cbn [andb negb]. rewrite while_done by reflexivity.
    replace (Z.to_nat k) with (S (Z.to_nat k - 1)) at 2 by lia.
    unfold after_epochs. now rewrite Nat.iter_succ.
  - intros j Hj.
    rewrite scan_stop_no_float, any_met_no_float by assumption.
    destruct (existsb _ _) eqn:Hex; [|reflexivity].
    apply existsb_exists in Hex. destruct Hex as (i & Hi & Heq).
    apply Z.eqb_eq in Heq. subst i.
    specialize (Hleast _ Hi). lia.
Qed.

(** A NaN loss is below no tolerance: with float entries only (no
    integer) and a library whose first loss is NaN in every epoch, the
    loop never ends. *)
Theorem train_loop_nan_never_ends (t : training) (fuel : nat) (s : State) :
  forallb (fun c => negb (isinstance_int c)) (stop_training (self s)) = true ->
  (forall j, (j < fuel)%nat -> exists ls, losses_of_epoch t j s = nan :: ls) ->
  train_loop fuel t s = Timeout (after_epochs t fuel s).
Proof.
  intros Hni Hnan. unfold train_loop, loop_entry.
  replace fuel with (fuel + 0)%nat at 1 by lia.
  rewrite while_continue; [reflexivity | |].
  - intros j Hj. destruct (Hnan j Hj) as [ls ->]. discriminate.
  - intros j Hj. destruct (Hnan j Hj) as [ls ->]. now apply any_met_nan.
Qed.

(** When the library reports no loss and [stop_training] holds a float
    entry, the first pass raises [IndexError] from [losses[0]], even if
    an integer entry is met in that pass, and after the empty report
    has been appended to [loss_trend]. *)
Theorem train_loop_raises_without_loss (t : training) (fuel : nat) (s : State) :
  epoch_losses t s = [] ->
  existsb isinstance_float (stop_training (self s)) = true ->
  train_loop (S fuel) t s = Exc IndexError (record_epoch t s) /\
  loss_trend (self (record_epoch t s)) = loss_trend (self s) ++ [[]].
Proof.
  intros Hl Hf. split.
  - unfold train_loop, loop_entry. rewrite while_step by reflexivity.
    unfold bind. rewrite body_spec, Hl. now rewrite scan_stop_empty_losses.
  - now rewrite record_epoch_loss_trend, Hl.
Qed.

End MoreLoopClaims.

(** * Further properties of the builder and of [fit] *)

Lemma py_index_in_range {A : Type} (xs : list A) (i : Z) :
  0 <= i < Z.of_nat (length xs) -> exists a, py_index xs i = inr a.
Proof.
  intros Hi. unfold py_index.
  replace (i <? 0) with false by (symmetry; apply Z.ltb_ge; lia).
  replace ((0 <=? i) && (i <? Z.of_nat (length xs))) with true.
  - destruct (nth_error xs (Z.to_nat i)) as [a|] eqn:E; [now exists a|].
    apply nth_error_None in E. lia.
  - symmetry. apply andb_true_iff. split; [apply Z.leb_le | apply Z.ltb_lt]; lia.
Qed.

Lemma py_index_beyond {A : Type} (xs : list A) (i : Z) :
  Z.of_nat (length xs) <= i -> py_index xs i = inl IndexError.
Proof.
  intros Hi. unfold py_index.
  replace (i <? 0) with false by (symmetry; apply Z.ltb_ge; lia).
  replace (i <? Z.of_nat (length xs)) with false by (symmetry; apply Z.ltb_ge; lia).
  now rewrite andb_false_r.
Qed.

(** [xs[-1]] is the last entry. *)
Lemma py_index_last {A : Type} (xs : list A) (x : A) :
  py_index (xs ++ [x]) (-1) = inr x.
Proof.
  unfold py_index. rewrite length_app. cbn [length].
  replace (-1 <? 0) with true by reflexivity.
  replace (-1 + Z.of_nat (length xs + 1)) with (Z.of_nat (length xs)) by lia.
  replace ((0 <=? Z.of_nat (length xs)) &&
           (Z.of_nat (length xs) <? Z.of_nat (length xs + 1))) with true.
  - rewrite Nat2Z.id, nth_error_app2 by lia. now rewrite Nat.sub_diag.
  - symmetry. apply andb_true_iff. split; [apply Z.leb_le | apply Z.ltb_lt]; lia.
Qed.

Lemma py_index_last_cons {A : Type} (x : A) (xs : list A) :
  py_index (x :: xs) (-1) = inr (last xs x).
Proof.
  destruct (exists_last (l := x :: xs)) as (front & y & E); [discriminate|].
  rewrite E, py_index_last. f_equal.
  destruct xs as [|x' xs']; cbn [last].
  - destruct front as [|a front]; cbn in E; [now inversion E|].
    inversion E as [[Ha Hf]]. now destruct front.
  - transitivity (last (x :: x' :: xs') x); [|reflexivity].
    rewrite E. now rewrite last_last.
Qed.

Lemma in_py_range (a b i : Z) : In i (py_range a b) <-> a <= i < b.
Proof.
  unfold py_range. rewrite in_map_iff. split.
  - intros (k & <- & Hk). apply in_seq in Hk. lia.
  - intros Hi. exists (Z.to_nat (i - a)). split; [lia|]. apply in_seq. lia.
Qed.

(** ** The block loops *)

Lemma block_loop_layers (fs : list activation) (widths idx : list Z) :
  forall lay out,
  block_loop fs widths idx lay = inr out ->
  layer_count out = (layer_count lay + 2 * length idx)%nat.
Proof.
  unfold layer_count.
  induction idx as [|i rest IH]; intros lay out H; cbn [block_loop] in H.
  - inversion H. cbn. lia.
  - destruct (py_index fs i); [discriminate|].
    destruct (py_index widths i); [discriminate|].
    apply IH in H. rewrite H. cbn [chain length]. rewrite !length_app. cbn. lia.
Qed.

Lemma block_loop_returns (fs : list activation) (widths idx : list Z) :
  (forall i, In i idx ->
     0 <= i < Z.of_nat (length fs) /\ 0 <= i < Z.of_nat (length widths)) ->
  forall lay, exists out, block_loop fs widths idx lay = inr out.
Proof.
  induction idx as [|i rest IH]; intros Hin lay; cbn [block_loop].
  - now exists lay.
  - destruct (Hin i (or_introl eq_refl)) as [Hf Hw].
    destruct (py_index_in_range fs i Hf) as [f ->].
    destruct (py_index_in_range widths i Hw) as [w ->].
    apply IH. intros j Hj. apply Hin. now right.
Qed.

Lemma block_loop_raises (fs : list activation) (widths idx : list Z) :
  (forall i, In i idx -> 0 <= i < Z.of_nat (length widths)) ->
  (exists i, In i idx /\ Z.of_nat (length fs) <= i) ->
  forall lay, block_loop fs widths idx lay = inl IndexError.
Proof.
  induction idx as [|i rest IH]; intros Hw (j & Hj & Hbig) lay.
  - contradiction.
  - cbn [block_loop].
    destruct (Z_lt_le_dec i (Z.of_nat (length fs))) as [Hlt | Hge].
    + destruct (py_index_in_range fs i) as [f ->];
        [pose proof (Hw i (or_introl eq_refl)); lia|].
      destruct (py_index_in_range widths i (Hw i (or_introl eq_refl))) as [w ->].
      apply IH.
      * intros k Hk. apply Hw. now right.
      * exists j. split; [|assumption]. destruct Hj as [-> | Hj]; [lia | assumption].
    + now rewrite py_index_beyond.
Qed.

(** A block over [widths] returns a bare dense layer of the last width,
    two layers per width strictly between the first and the last. *)
Lemma EncoderBlock_shape (o : AE_EDDL) (widths : list Z) (lay out : layer) :
  EncoderBlock o widths lay = inr out ->
  exists p w, out = Dense p w /\ py_index widths (-1) = inr w /\
    layer_count out = (layer_count lay + 2 * (length widths - 2) + 1)%nat.
Proof.
  unfold EncoderBlock, last_dense. intros H.
  destruct (block_loop _ _ _ _) as [|mid] eqn:Eb; [discriminate|].
  destruct (py_index widths (-1)) as [|w]; [discriminate|].
  inversion H. exists mid, w. repeat split.
  apply block_loop_layers in Eb. rewrite py_range_length in Eb.
  unfold layer_count in *. cbn [chain]. rewrite length_app, Eb. cbn. lia.
Qed.

Lemma EncoderBlock_returns (o : AE_EDDL) (widths : list Z) (lay : layer) :
  widths <> [] ->
  (length widths <= 2 \/ length widths - 1 <= length (function_encoder o))%nat ->
  exists out, EncoderBlock o widths lay = inr out.
Proof.
  intros Hne Hlen. unfold EncoderBlock, last_dense.
  destruct (block_loop_returns (function_encoder o) widths
              (py_range 1 (Z.of_nat (length widths) - 1))) with (lay := lay)
    as [mid ->].
  { intros i Hi. apply in_py_range in Hi. lia. }
  destruct widths as [|w ws]; [contradiction|].
  rewrite py_index_last_cons. now eexists.
Qed.

Lemma EncoderBlock_raises (o : AE_EDDL) (widths : list Z) (lay : layer) :
  (3 <= length widths)%nat ->
  (length (function_encoder o) < length widths - 1)%nat ->
  EncoderBlock o widths lay = inl IndexError.
Proof.
  intros H3 Hlen. unfold EncoderBlock.
  rewrite block_loop_raises; [reflexivity | |].
  - intros i Hi. apply in_py_range in Hi. lia.
  - exists (Z.of_nat (length widths) - 2). split; [|lia].
    apply in_py_range. lia.
Qed.

Lemma EncoderBlock_reads_function_encoder (o o' : AE_EDDL) (widths : list Z) (lay : layer) :
  function_encoder o = function_encoder o' ->
  EncoderBlock o widths lay = EncoderBlock o' widths lay.
Proof. unfold EncoderBlock. now intros ->. Qed.

Section MoreBuilder.

Context {L : EDDL}.

Lemma bind_attr {A B : Type} (f : AE_EDDL -> A) (k : A -> M B) (s : State) :
  bind (attr f) k s = k (f (self s)) s.
Proof. reflexivity. Qed.

Lemma bind_modify {B : Type} (f : AE_EDDL -> AE_EDDL) (k : unit -> M B) (s : State) :
  bind (modify_self f) k s = k tt (with_self f s).
Proof. reflexivity. Qed.

Lemma bind_call {B : Type} (c : eddl_call) (k : unit -> M B) (s : State) :
  bind (call c) k s = k tt (with_call c s).
Proof. reflexivity. Qed.

Lemma bind_lift_inr {A B : Type} (r : exn + A) (a : A) (k : A -> M B) (s : State) :
  r = inr a -> bind (lift r) k s = k a s.
Proof. now intros ->. Qed.

Lemma bind_lift_inl {A B : Type} (r : exn + A) (x : exn) (k : A -> M B) (s : State) :
  r = inl x -> bind (lift r) k s = Exc x s.
Proof. now intros ->. Qed.

Lemma py_index_first_app (ld : list Z) (d : Z) :
  py_index (ld ++ [d]) 0 = inr (hd d ld).
Proof. destruct ld as [|x ld]; cbn [app hd]; apply py_index_head. Qed.

(** [_build_model] computes [build_outcome]. *)
Lemma build_model_cases (values : tensor) (s : State) :
  _build_model values s = build_outcome values s.
Proof.
  unfold _build_model, build_outcome.
  rewrite bind_attr.
  destruct (py_index (tshape values) 1) as [x | d] eqn:Ed.
  { reflexivity. }
  rewrite (bind_lift_inr _ d) by reflexivity.
  rewrite (bind_lift_inr _ d) by reflexivity.
  cbv zeta.
  rewrite (bind_lift_inr _ d) by apply py_index_head.
  rewrite bind_attr.
  destruct (EncoderBlock (self s) (d :: layers_encoder (self s)) (Input 1 [d]))
    as [x | e] eqn:Ee.
  { now rewrite (bind_lift_inl _ x) by exact Ee. }
  rewrite (bind_lift_inr _ e) by exact Ee.
  rewrite bind_modify, bind_attr.
  destruct (DecoderBlock (self s) (layers_decoder (self s) ++ [d]) e)
    as [x | dec] eqn:Edec.
  { now rewrite (bind_lift_inl _ x) by exact Edec. }
  rewrite (bind_lift_inr _ dec) by exact Edec.
  rewrite !bind_modify, bind_attr, bind_call.
  rewrite (bind_lift_inr _ (hd d (layers_decoder (self s))))
    by apply py_index_first_app.
  rewrite bind_attr.
  destruct (DecoderBlock (self s) (layers_decoder (self s) ++ [d])
              (Input 2 [hd d (layers_decoder (self s))])) as [x | dec2] eqn:Ed2.
  { now rewrite (bind_lift_inl _ x) by exact Ed2. }
  rewrite (bind_lift_inr _ dec2) by exact Ed2.
  rewrite !bind_modify, bind_attr, !bind_call.
  reflexivity.
Qed.

(** What a returning [_build_model] went through. *)
Lemma build_model_inv (values : tensor) (s s' : State) :
  _build_model values s = Val tt s' ->
  exists d e dec dec2,
    py_index (tshape values) 1 = inr d /\
    EncoderBlock (self s) (d :: layers_encoder (self s)) (Input 1 [d]) = inr e /\
    EncoderBlock (self s) (layers_decoder (self s) ++ [d]) e = inr dec /\
    EncoderBlock (self s) (layers_decoder (self s) ++ [d])
      (Input 2 [hd d (layers_decoder (self s))]) = inr dec2 /\
    s' = models_built d e dec dec2 s.
Proof.
  rewrite build_model_cases. unfold build_outcome.
  destruct (py_index (tshape values) 1) as [|d]; [discriminate|]. cbv zeta.
  destruct (EncoderBlock _ _ _) as [|e] eqn:Ee; [discriminate|].
  destruct (DecoderBlock _ _ e) as [|dec] eqn:Edec; [discriminate|].
  destruct (DecoderBlock (self s) (layers_decoder (self s) ++ [d])
              (Input 2 [hd d (layers_decoder (self s))]))
    as [|dec2] eqn:Edec2; [discriminate|].
  intros H. injection H as <-. now exists d, e, dec, dec2.
Qed.

Lemma models_built_layers (d : Z) (e dec dec2 : layer) (s : State) :
  EncoderBlock (self s) (d :: layers_encoder (self s)) (Input 1 [d]) = inr e ->
  EncoderBlock (self s) (layers_decoder (self s) ++ [d]) e = inr dec ->
  EncoderBlock (self s) (layers_decoder (self s) ++ [d])
    (Input 2 [hd d (layers_decoder (self s))]) = inr dec2 ->
  (1 <= length (layers_encoder (self s)))%nat ->
  (1 <= length (layers_decoder (self s)))%nat ->
  model_layers (model_Decoder (self (models_built d e dec dec2 s))) =
    (2 * length (layers_decoder (self s)))%nat /\
  model_layers (model_Autoencoder (self (models_built d e dec dec2 s))) =
    (2 * length (layers_encoder (self s)) + 2 * length (layers_decoder (self s)) - 1)%nat.
Proof.
  intros Ee Edec Edec2 Hm Hp.
  apply EncoderBlock_shape in Ee, Edec, Edec2.
  destruct Ee as (? & ? & _ & _ & Ce). destruct Edec as (? & ? & _ & _ & Cdec).
  destruct Edec2 as (? & ? & _ & _ & Cdec2).
  rewrite length_app in Cdec, Cdec2. cbn [length] in Ce, Cdec, Cdec2.
  unfold layer_count at 2 in Ce. unfold layer_count at 2 in Cdec2.
  cbn [chain length] in Ce, Cdec2.
  cbn [models_built model_layers with_call with_self self model_Decoder
       model_Autoencoder set_model_Decoder set_decoder2 autoencoder_built
       set_model_Autoencoder set_decoder encoder_assigned set_encoder].
  split; lia.
Qed.

(** Whatever its outcome, [_build_model] assigns to no attribute other
    than [encoder], [decoder], [decoder2], [model_Autoencoder] and
    [model_Decoder]. *)
Theorem build_model_assigns_only_graphs (values : tensor) (s : State) :
  clear_graphs (self (final (_build_model values s))) = clear_graphs (self s).
Proof.
  rewrite build_model_cases. unfold build_outcome.
  destruct (py_index (tshape values) 1); [reflexivity|]. cbv zeta.
  destruct (EncoderBlock _ _ _); [reflexivity|].
  destruct (DecoderBlock _ _ _); [reflexivity|].
  destruct (DecoderBlock _ _ _); reflexivity.
Qed.

Lemma build_outcome_returns (values : tensor) (s : State) (d : Z) :
  py_index (tshape values) 1 = inr d ->
  (length (layers_encoder (self s)) <= 1 \/
   length (layers_encoder (self s)) <= length (function_encoder (self s)))%nat ->
  (length (layers_decoder (self s)) <= 1 \/
   length (layers_decoder (self s)) <= length (function_encoder (self s)))%nat ->
  exists e dec dec2,
    build_outcome values s = Val tt (models_built d e dec dec2 s).
Proof.
  intros Hd Hm Hp. unfold build_outcome.
  rewrite Hd. cbv zeta.
  destruct (EncoderBlock_returns (self s) (d :: layers_encoder (self s)) (Input 1 [d]))
    as [e He]; [discriminate | cbn [length]; lia |].
  rewrite He.
  assert (Hlen : (length (layers_decoder (self s) ++ [d]) =
                  length (layers_decoder (self s)) + 1)%nat)
    by (rewrite length_app; reflexivity).
  assert (Hne : layers_decoder (self s) ++ [d] <> [])
    by (intros E; apply (f_equal (@length Z)) in E; rewrite Hlen in E; cbn in E; lia).
  change (DecoderBlock (self s)) with (EncoderBlock (self s)).
  destruct (EncoderBlock_returns (self s) (layers_decoder (self s) ++ [d]) e)
    as [dec Hdec]; [assumption | lia |].
  rewrite Hdec.
  destruct (EncoderBlock_returns (self s) (layers_decoder (self s) ++ [d])
              (Input 2 [hd d (layers_decoder (self s))]))
    as [dec2 Hdec2]; [assumption | lia |].
  rewrite Hdec2. now exists e, dec, dec2.
Qed.

(** On a tensor of rank two, [_build_model] returns as soon as
    [function_encoder] has an entry for every index the two loops use:
    at least as many entries as [layers_encoder], unless that has at
    most one, and as many as [layers_decoder], unless that has at most
    one. *)
Theorem build_model_returns (values : tensor) (s : State) (d : Z) :
  py_index (tshape values) 1 = inr d ->
  (length (layers_encoder (self s)) <= 1 \/
   length (layers_encoder (self s)) <= length (function_encoder (self s)))%nat ->
  (length (layers_decoder (self s)) <= 1 \/
   length (layers_decoder (self s)) <= length (function_encoder (self s)))%nat ->
  exists e dec dec2,
    _build_model values s = Val tt (models_built d e dec dec2 s).
Proof.
  intros Hd Hm Hp. rewrite build_model_cases.
  now apply (build_outcome_returns values s d).
Qed.

Lemma build_outcome_raises (values : tensor) (s : State) (d : Z) :
  py_index (tshape values) 1 = inr d ->
  (2 <= length (layers_encoder (self s)) /\
   length (function_encoder (self s)) < length (layers_encoder (self s)))%nat \/
  (2 <= length (layers_decoder (self s)) /\
   length (function_encoder (self s)) < length (layers_decoder (self s)))%nat ->
  exists s',
    build_outcome values s = Exc IndexError s' /\
    decoder (self s') = decoder (self s) /\
    decoder2 (self s') = decoder2 (self s) /\
    model_Autoencoder (self s') = model_Autoencoder (self s) /\
    model_Decoder (self s') = model_Decoder (self s).
Proof.
  intros Hd Hshort. unfold build_outcome.
  rewrite Hd. cbv zeta.
  assert (Hlen : (length (layers_decoder (self s) ++ [d]) =
                  length (layers_decoder (self s)) + 1)%nat)
    by (rewrite length_app; reflexivity).
  destruct (EncoderBlock (self s) (d :: layers_encoder (self s)) (Input 1 [d]))
    as [x | e] eqn:Ee.
  - destruct Hshort as [[H2 Hlt] | [H2 Hlt]].
    + rewrite EncoderBlock_raises in Ee by (cbn [length]; lia).
      inversion Ee. now exists s.
    + destruct (Nat.le_gt_cases (length (layers_encoder (self s))) 1) as [Hm | Hm].
      * destruct (EncoderBlock_returns (self s) (d :: layers_encoder (self s))
                    (Input 1 [d])) as [e He]; [discriminate | cbn [length]; lia |].
        congruence.
      * destruct (Nat.le_gt_cases (length (layers_encoder (self s)))
                    (length (function_encoder (self s)))) as [Hfe | Hfe].
        -- destruct (EncoderBlock_returns (self s) (d :: layers_encoder (self s))
                       (Input 1 [d])) as [e He]; [discriminate | cbn [length]; lia |].
           congruence.
        -- rewrite EncoderBlock_raises in Ee by (cbn [length]; lia).
           inversion Ee. now exists s.
  - destruct Hshort as [[H2 Hlt] | [H2 Hlt]].
    + rewrite EncoderBlock_raises in Ee by (cbn [length]; lia). discriminate.
    + change (DecoderBlock (self s)) with (EncoderBlock (self s)).
      rewrite EncoderBlock_raises by lia.
      exists (encoder_assigned e s). repeat split.
Qed.

(** [_build_model] raises [IndexError] when [function_encoder] is too
    short for the encoder loop or, the decoder loop indexing the same
    list, for the decoder loop: two or more decoder widths and fewer
    encoder activations than decoder widths.  The exception comes
    before any assignment to [decoder], [decoder2], [model_Autoencoder]
    and [model_Decoder], which are as before. *)
Theorem build_model_raises (values : tensor) (s : State) (d : Z) :
  py_index (tshape values) 1 = inr d ->
  (2 <= length (layers_encoder (self s)) /\
   length (function_encoder (self s)) < length (layers_encoder (self s)))%nat \/
  (2 <= length (layers_decoder (self s)) /\
   length (function_encoder (self s)) < length (layers_decoder (self s)))%nat ->
  exists s',
    _build_model values s = Exc IndexError s' /\
    decoder (self s') = decoder (self s) /\
    decoder2 (self s') = decoder2 (self s) /\
    model_Autoencoder (self s') = model_Autoencoder (self s) /\
    model_Decoder (self s') = model_Decoder (self s).
Proof.
  intros Hd Hshort. rewrite build_model_cases.
  now apply (build_outcome_raises values s d).
Qed.

(** Whenever [_build_model] returns, the five graph attributes are set
    and both models reconstruct at the input's width: the autoencoder
    reads [values.shape[1]] features and it and the standalone decoder
    end in a bare dense layer of that width; the encoder ends in a bare
    dense layer whose width is the last entry of [layers_encoder], and
    the standalone decoder reads as many values as the first entry of
    [layers_decoder] says. *)
Theorem build_model_graphs (values : tensor) (s s' : State) :
  _build_model values s = Val tt s' ->
  exists d e dec dec2 pe pd pd2,
    py_index (tshape values) 1 = inr d /\
    s' = models_built d e dec dec2 s /\
    encoder (self s') = Some e /\
    decoder (self s') = Some dec /\
    decoder2 (self s') = Some dec2 /\
    model_Autoencoder (self s') = Some (Model [Input 1 [d]] [dec]) /\
    model_Decoder (self s') =
      Some (Model [Input 2 [hd d (layers_decoder (self s))]] [dec2]) /\
    e = Dense pe (last (layers_encoder (self s)) d) /\
    dec = Dense pd d /\ dec2 = Dense pd2 d.
Proof.
  rewrite build_model_cases. unfold build_outcome.
  destruct (py_index (tshape values) 1) as [|d]; [discriminate|]. cbv zeta.
  destruct (EncoderBlock _ _ _) as [|e] eqn:Ee; [discriminate|].
  destruct (DecoderBlock _ _ e) as [|dec] eqn:Edec; [discriminate|].
  destruct (DecoderBlock (self s) (layers_decoder (self s) ++ [d])
              (Input 2 [hd d (layers_decoder (self s))]))
    as [|dec2] eqn:Edec2; [discriminate|].
  intros H. injection H as Hs.
  apply EncoderBlock_shape in Ee. destruct Ee as (pe & we & -> & Hwe & _).
  rewrite py_index_last_cons in Hwe. injection Hwe as Hwe. subst we.
  change (DecoderBlock (self s)) with (EncoderBlock (self s)) in Edec, Edec2.
  apply EncoderBlock_shape in Edec. destruct Edec as (pd & wd & -> & Hwd & _).
  rewrite py_index_last in Hwd. injection Hwd as Hwd. subst wd.
  apply EncoderBlock_shape in Edec2. destruct Edec2 as (pd2 & wd2 & -> & Hwd2 & _).
  rewrite py_index_last in Hwd2. injection Hwd2 as Hwd2. subst wd2 s'.
  exists d, (Dense pe (last (layers_encoder (self s)) d)), (Dense pd d), (Dense pd2 d),
    pe, pd, pd2.
  repeat split.
Qed.

(** The layer counts behind the comment in [fit]: whenever
    [_build_model] returns and neither width list is empty, the
    standalone decoder has [2*len(layers_decoder)] layers, its input
    included, and the autoencoder has
    [2*len(layers_encoder) + 2*len(layers_decoder) - 1]. *)
Theorem build_model_layer_counts (values : tensor) (s s' : State) :
  _build_model values s = Val tt s' ->
  (1 <= length (layers_encoder (self s)))%nat ->
  (1 <= length (layers_decoder (self s)))%nat ->
  model_layers (model_Decoder (self s')) =
    (2 * length (layers_decoder (self s)))%nat /\
  model_layers (model_Autoencoder (self s')) =
    (2 * length (layers_encoder (self s)) + 2 * length (layers_decoder (self s)) - 1)%nat.
Proof.
  intros Hb Hm Hp.
  apply build_model_inv in Hb.
  destruct Hb as (d & e & dec & dec2 & _ & Ee & Edec & Edec2 & ->).
  now apply models_built_layers.
Qed.

(** An object made by [__init__] from a single encoder activation has
    one activation per encoder width, and, the decoder loop reading
    that same list, [_build_model] returns on a tensor of rank two
    exactly when [layers_decoder] has at most one entry or no more
    entries than [layers_encoder]. *)
Theorem init_single_activation_builds_iff
    (le ld : list Z) (f : activation) (fd : activation + list activation)
    (stop : PyVal + list PyVal) (bs : Z) (lo me : option string)
    (opt : string) (rate : float) (dev : string) (mode : Z)
    (values : tensor) (d : Z) (s : State) :
  self s = __init__ le ld (inl f) fd stop bs lo me opt rate dev mode ->
  py_index (tshape values) 1 = inr d ->
  function_encoder (self s) = repeat f (length le) /\
  ((exists s', _build_model values s = Val tt s') <->
   (length ld <= 1 \/ length ld <= length le)%nat).
Proof.
  intros Hself Hd.
  assert (Hfe : function_encoder (self s) = repeat f (length le))
    by now rewrite Hself.
  assert (Hle : layers_encoder (self s) = le) by now rewrite Hself.
  assert (Hld : layers_decoder (self s) = ld) by now rewrite Hself.
  split; [assumption|]. rewrite build_model_cases. split.
  - intros [s' Hval].
    destruct (Nat.le_gt_cases (length ld) 1) as [H1 | H1]; [now left|].
    destruct (Nat.le_gt_cases (length ld) (length le)) as [H2 | H2]; [now right|].
    destruct (build_outcome_raises values s d Hd) as (s'' & Hexc & _).
    { right. rewrite Hld, Hfe, repeat_length. lia. }
    congruence.
  - intros Hp.
    destruct (build_outcome_returns values s d Hd) as (e & dec & dec2 & Hval).
    + right. rewrite Hle, Hfe, repeat_length. lia.
    + rewrite Hld, Hfe, repeat_length. exact Hp.
    + eexists. exact Hval.
Qed.

End MoreBuilder.

(** ** [fit] as a whole, and the transfer *)


Lemma py_slice_from_one {A : Type} (xs : list A) : py_slice_from 1 xs = tl xs.
Proof.
  unfold py_slice_from. replace (1 <? 0) with false by reflexivity.
  destruct xs as [|x xs]; [reflexivity|].
  replace (Z.min 1 (Z.of_nat (length (x :: xs)))) with 1
    by (cbn [length]; lia).
  reflexivity.
Qed.

Section MoreFit.

Context {L : EDDL}.

(** The transfer always returns: one [set_parameters] on the decoder
    model, with a placeholder and a slice of the autoencoder's list. *)
Lemma copy_parameters_run (s : State) :
  copy_parameters s =
  Val tt (with_call
            (C_set_parameters (model_Decoder (self s))
               ([] :: py_slice_from
                        (- (2 * Z.of_nat (length (layers_encoder (self s))) - 1))
                        (get_parameters (model_Autoencoder (self s)) true (lib s))))
            s).
Proof. reflexivity. Qed.

(** [fit] is: convert, build, train, transfer. *)
Lemma fit_cases (fuel : nat) (a : ndarray) (s : State) :
  let v := {| tid := fresh s; tshape := np_shape (np_T a) |} in
  fit fuel a s =
  match _build_model v (final (Tensor_fromarray (np_T a) s)) with
  | Val _ s1 =>
      match train fuel v s1 with
      | Val _ s2 => copy_parameters s2
      | Exc x s2 => Exc x s2
      | Timeout s2 => Timeout s2
      end
  | Exc x s1 => Exc x s1
  | Timeout s1 => Timeout s1
  end.
Proof. reflexivity. Qed.

Lemma tensor_rank_two (values : tensor) (d : Z) :
  py_index (tshape values) 1 = inr d ->
  exists s0, py_index (tshape values) 0 = inr s0.
Proof.
  intros H. apply py_index_in_range.
  destruct (Z_lt_le_dec 1 (Z.of_nat (length (tshape values)))) as [Hlt | Hge]; [lia|].
  rewrite py_index_beyond in H by assumption. discriminate.
Qed.

(** A snapshot array of rank one makes [fit] raise [IndexError] at
    [values.shape[1]]: the array has been converted, nothing is built,
    nothing trained. *)
Theorem fit_rank_one_raises (fuel : nat) (v : list float) (s : State) :
  fit fuel (Arr1 v) s = Exc IndexError (final (Tensor_fromarray (Arr1 v) s)).
Proof.
  rewrite fit_cases. cbv zeta. rewrite build_model_cases.
  unfold build_outcome. cbn [np_T np_shape tshape].
  now rewrite py_index_beyond by (cbn [length]; lia).
Qed.

(** With [batch_size = 0], the second and third modes raise
    [ZeroDivisionError] once the models are built: [fit] stops in the
    state [_build_model] left, nothing trained, no parameter
    transferred. *)
Theorem fit_zero_batch_size_raises (fuel : nat) (a : ndarray) (s s1 : State) :
  _build_model {| tid := fresh s; tshape := np_shape (np_T a) |}
    (final (Tensor_fromarray (np_T a) s)) = Val tt s1 ->
  training_type (self s) = 2 \/ training_type (self s) = 3 ->
  batch_size (self s) = 0 ->
  fit fuel a s = Exc ZeroDivisionError s1.
Proof.
  intros Hb Ht Hbs. rewrite fit_cases. cbv zeta. rewrite Hb.
  apply build_model_inv in Hb.
  destruct Hb as (d & e & dec & dec2 & Hd & _ & _ & _ & ->).
  destruct (tensor_rank_two _ _ Hd) as [s0 Hs0].
  now rewrite (train_zero_batch_size fuel _ s0).
Qed.

(** With a [training_type] other than 1, 2 and 3, [fit] trains nothing:
    whatever the fuel and the stopping list, it builds the models and
    transfers the untrained parameters. *)
Theorem fit_other_training_type (fuel : nat) (a : ndarray) (s s1 : State) :
  _build_model {| tid := fresh s; tshape := np_shape (np_T a) |}
    (final (Tensor_fromarray (np_T a) s)) = Val tt s1 ->
  training_type (self s) <> 1 ->
  training_type (self s) <> 2 ->
  training_type (self s) <> 3 ->
  fit fuel a s = copy_parameters s1 /\
  finished (fit fuel a s) = true /\
  loss_trend (self (final (fit fuel a s))) = loss_trend (self s) /\
  filter is_training_call (calls (final (fit fuel a s))) =
    filter is_training_call (calls s).
Proof.
  intros Hb H1 H2 H3.
  pose proof Hb as Hinv. apply build_model_inv in Hinv.
  destruct Hinv as (d & e & dec & dec2 & _ & _ & _ & _ & ->).
  assert (Htrain : train fuel {| tid := fresh s; tshape := np_shape (np_T a) |}
                     (models_built d e dec dec2 (final (Tensor_fromarray (np_T a) s)))
                   = Val tt (models_built d e dec dec2
                               (final (Tensor_fromarray (np_T a) s)))).
  { unfold train. rewrite bind_attr.
    change (training_type (self (models_built d e dec dec2
                                   (final (Tensor_fromarray (np_T a) s)))))
      with (training_type (self s)).
    replace (training_type (self s) =? 1) with false
      by (symmetry; now apply Z.eqb_neq).
    rewrite bind_attr.
    change (training_type (self (models_built d e dec dec2
                                   (final (Tensor_fromarray (np_T a) s)))))
      with (training_type (self s)).
    replace (training_type (self s) =? 2) with false
      by (symmetry; now apply Z.eqb_neq).
    rewrite bind_attr.
    change (training_type (self (models_built d e dec dec2
                                   (final (Tensor_fromarray (np_T a) s)))))
      with (training_type (self s)).
    replace (training_type (self s) =? 3) with false
      by (symmetry; now apply Z.eqb_neq).
    reflexivity. }
  assert (Hfit : fit fuel a s =
                 copy_parameters (models_built d e dec dec2
                                    (final (Tensor_fromarray (np_T a) s)))).
  { rewrite fit_cases. cbv zeta. now rewrite Hb, Htrain. }
  rewrite Hfit, copy_parameters_run. cbn [finished final with_call self calls].
  repeat split.
  rewrite filter_app. cbn [filter is_training_call]. rewrite app_nil_r.
  cbn [models_built autoencoder_built encoder_assigned with_call with_self calls
       Tensor_fromarray final].
  rewrite !filter_app. cbn [filter is_training_call build]. now rewrite !app_nil_r.
Qed.

(** Whenever [fit] returns, the five graph attributes are set and the
    last library call is the [set_parameters] into the standalone
    decoder, its list starting with the empty placeholder. *)
Theorem fit_returns_with_models (fuel : nat) (a : ndarray) (s s' : State) :
  fit fuel a s = Val tt s' ->
  (exists e dec dec2 ma md,
     encoder (self s') = Some e /\ decoder (self s') = Some dec /\
     decoder2 (self s') = Some dec2 /\
     model_Autoencoder (self s') = Some ma /\ model_Decoder (self s') = Some md) /\
  exists before ps,
    calls s' = before ++ [C_set_parameters (model_Decoder (self s')) ([] :: ps)].
Proof.
  rewrite fit_cases. cbv zeta.
  destruct (_build_model _ _) as [[] s1 | |] eqn:Hb; try discriminate.
  destruct (train fuel _ s1) as [[] s2 | |] eqn:Ht; try discriminate.
  rewrite copy_parameters_run. intros H. injection H as <-.
  cbn [with_call self calls].
  pose proof (train_frame fuel
                {| tid := fresh s; tshape := np_shape (np_T a) |} s1) as Hframe.
  rewrite Ht in Hframe. cbn [final] in Hframe.
  apply build_model_inv in Hb.
  destruct Hb as (d & e & dec & dec2 & _ & _ & _ & _ & ->).
  split; [|now eexists _, _].
  exists e, dec, dec2, (Model [Input 1 [d]] [dec]),
    (Model [Input 2 [hd d (layers_decoder
                             (self (final (Tensor_fromarray (np_T a) s))))]] [dec2]).
  pose proof (f_equal encoder Hframe) as H1.
  pose proof (f_equal decoder Hframe) as H2.
  pose proof (f_equal decoder2 Hframe) as H3.
  pose proof (f_equal model_Autoencoder Hframe) as H4.
  pose proof (f_equal model_Decoder Hframe) as H5.
  repeat split; [exact H1 | exact H2 | exact H3 | exact H4 | exact H5].
Qed.


(** With an empty [layers_encoder] the slice is [full[1:]]: the
    transfer drops the first group of the autoencoder and installs all
    the others behind the placeholder. *)
Theorem copy_parameters_drops_first_group (s : State) :
  layers_encoder (self s) = [] ->
  copy_parameters s =
  Val tt (with_call
            (C_set_parameters (model_Decoder (self s))
               ([] :: tl (get_parameters (model_Autoencoder (self s)) true (lib s))))
            s).
Proof.
  intros Hle. rewrite copy_parameters_run, Hle.
  cbn [length Z.of_nat Z.mul Z.sub Z.add Z.opp Z.pos_sub].
  now rewrite py_slice_from_one.
Qed.

(** The transfer fits the standalone decoder exactly when the two width
    lists are equally long.  For models built by [_build_model] from
    non-empty lists, in any later state that differs in the trends
    only, and a library that reports one parameter group per layer of
    the autoencoder: the installed list has [2*len(layers_encoder)]
    entries, the decoder model [2*len(layers_decoder)] layers. *)
Theorem transfer_fits_decoder_iff (values : tensor) (s s1 s2 : State) :
  _build_model values s = Val tt s1 ->
  clear_trends (self s2) = clear_trends (self s1) ->
  (1 <= length (layers_encoder (self s)))%nat ->
  (1 <= length (layers_decoder (self s)))%nat ->
  length (get_parameters (model_Autoencoder (self s2)) true (lib s2)) =
    model_layers (model_Autoencoder (self s2)) ->
  exists ps,
    copy_parameters s2 =
      Val tt (with_call (C_set_parameters (model_Decoder (self s2)) ps) s2) /\
    length ps = (2 * length (layers_encoder (self s)))%nat /\
    model_layers (model_Decoder (self s2)) = (2 * length (layers_decoder (self s)))%nat /\
    (length ps = model_layers (model_Decoder (self s2)) <->
     length (layers_encoder (self s)) = length (layers_decoder (self s))).
Proof.
  intros Hb Hframe Hm Hp Hlib.
  apply build_model_inv in Hb.
  destruct Hb as (d & e & dec & dec2 & _ & Ee & Edec & Edec2 & ->).
  destruct (models_built_layers d e dec dec2 s Ee Edec Edec2 Hm Hp) as [Hd Ha].
  pose proof (f_equal layers_encoder Hframe) as Hle2.
  pose proof (f_equal model_Autoencoder Hframe) as Hma.
  pose proof (f_equal model_Decoder Hframe) as Hmd.
  change (layers_encoder (self s2) = layers_encoder (self s)) in Hle2.
  change (model_Autoencoder (self s2) =
          model_Autoencoder (self (models_built d e dec dec2 s))) in Hma.
  change (model_Decoder (self s2) =
          model_Decoder (self (models_built d e dec dec2 s))) in Hmd.
  assert (Hfull : length (get_parameters (model_Autoencoder (self s2)) true (lib s2)) =
                  (2 * length (layers_encoder (self s)) +
                   2 * length (layers_decoder (self s)) - 1)%nat)
    by (rewrite Hlib, Hma; exact Ha).
  exists ([] :: py_slice_from
                  (- (2 * Z.of_nat (length (layers_encoder (self s2))) - 1))
                  (get_parameters (model_Autoencoder (self s2)) true (lib s2))).
  split; [apply copy_parameters_run|].
  rewrite Hmd, Hd, Hle2. cbn [length].
  rewrite py_slice_last by lia.
  rewrite last_groups_length by lia.
  repeat split; lia.
Qed.

End MoreFit.

(** * Further properties of the transforms *)

Lemma map_nth_seq {A : Type} (l : list A) (d : A) :
  map (fun i => nth i l d) (seq 0 (length l)) = l.
Proof.
  induction l as [|x l IH]; [reflexivity|].
  cbn [length seq map nth]. f_equal.
  rewrite <- seq_shift, map_map. exact IH.
Qed.

(** Transposing twice gives the rows back, for a matrix that holds what
    its shape says. *)
Lemma transpose_rows_twice (r c : nat) (rows : list (list float)) :
  length rows = r -> Forall (fun row => length row = c) rows ->
  transpose_rows r (transpose_rows c rows) = rows.
Proof.
  intros Hr Hc. unfold transpose_rows.
  transitivity (map (fun i => nth i rows []) (seq 0 (length rows)));
    [|apply map_nth_seq].
  rewrite Hr. apply map_ext_in. intros j Hj. apply in_seq in Hj.
  rewrite map_map.
  assert (Hrow : length (nth j rows []) = c).
  { rewrite Forall_forall in Hc. apply Hc. apply nth_In. lia. }
  transitivity (map (fun i => nth i (nth j rows []) 0%float)
                  (seq 0 (length (nth j rows []))));
    [|apply map_nth_seq].
  rewrite Hrow. apply map_ext. intros i.
  rewrite (nth_indep _ 0%float (nth i [] 0%float))
    by (rewrite length_map; lia).
  now rewrite (map_nth (fun row => nth i row 0%float)).
Qed.

Lemma np_T_twice (a : ndarray) : well_formed a = true -> np_T (np_T a) = a.
Proof.
  destruct a as [v | r c rows]; [reflexivity|]. cbn [well_formed np_T].
  intros H. apply andb_true_iff in H. destruct H as [Hr Hc].
  apply Nat.eqb_eq in Hr. rewrite forallb_forall in Hc.
  f_equal. apply transpose_rows_twice; [assumption|].
  apply Forall_forall. intros row Hrow. now apply Nat.eqb_eq, Hc.
Qed.

Lemma one_in_shape_T (a : ndarray) : one_in_shape (np_T a) = one_in_shape a.
Proof.
  destruct a as [v | r c rows]; [reflexivity|].
  unfold one_in_shape. cbn. rewrite !orb_false_r. apply orb_comm.
Qed.

Lemma concat_singletons {A : Type} (l : list A) :
  concat (map (fun x => [x]) l) = l.
Proof. induction l as [|x l IH]; [reflexivity|]. cbn. now rewrite IH. Qed.

Section MoreTransforms.

Context {L : EDDL}.

(** [transform] hands back the encoder's output array as the library
    holds it, samples in rows: the two transpositions cancel.  With a
    scaler it hands back what the scaler's [fit_transform] makes of that
    array, and the scaler is refitted by the call. *)
Theorem transform_returns_encoder_output
    (X : ndarray) (scaler_red : option scaler) (s : State) :
  well_formed (encoder_output X s) = true ->
  transform X scaler_red s =
  Val (match scaler_red with
       | Some sc => (fst (fit_transform sc (encoder_output X s)),
                     Some (snd (fit_transform sc (encoder_output X s))))
       | None => (encoder_output X s, None)
       end) (predicted X s).
Proof.
  intros Hwf. unfold transform, bind, Tensor_fromarray, attr, call, query, ret.
  cbv beta iota zeta.
  change (getdata _ _) with (encoder_output X s).
  rewrite (np_T_twice _ Hwf).
  destruct scaler_red as [sc|]; [|reflexivity].
  now destruct (fit_transform sc (encoder_output X s)).
Qed.

(** Without a database scaler and with no dimension of size 1,
    [inverse_transform] hands back the decoder's output array as the
    library holds it, samples in rows. *)
Theorem inverse_transform_returns_decoder_output (g : ndarray) (s : State) :
  well_formed (decoder_output g s) = true ->
  one_in_shape (decoder_output g s) = false ->
  inverse_transform g None s = Val (decoder_output g s) (forwarded g s).
Proof.
  intros Hwf Hone.
  change (inverse_transform g None s) with
    (@Val L ndarray (squeeze_or_transpose (np_T (decoder_output g s))) (forwarded g s)).
  unfold squeeze_or_transpose. rewrite one_in_shape_T, Hone.
  now rewrite np_T_twice.
Qed.

(** For a single latent sample and no database scaler,
    [inverse_transform] returns the decoder's one output row as a
    vector. *)
Theorem inverse_transform_single_sample
    (g : ndarray) (s : State) (row : list float) :
  decoder_output g s = Arr2 1 (length row) [row] ->
  inverse_transform g None s = Val (Arr1 row) (forwarded g s).
Proof.
  intros Hout.
  change (inverse_transform g None s) with
    (@Val L ndarray (squeeze_or_transpose (np_T (decoder_output g s))) (forwarded g s)).
  rewrite Hout. unfold squeeze_or_transpose, one_in_shape.
  cbn [np_T np_shape existsb].
  replace (Z.of_nat 1 =? 1) with true by reflexivity.
  rewrite orb_true_r. unfold transpose_rows. cbn [np_ravel map]. do 2 f_equal.
  rewrite <- (map_map (fun j => nth j row 0%float) (fun x => [x])).
  rewrite concat_singletons. apply map_nth_seq.
Qed.



(** One epoch of the second mode: a reset, then [num_batches] times
    (none when that number is negative) a [next_batch] from the dataset
    into the one buffer followed by a [train_batch] with the buffer as
    input and as target; so many [train_batch] calls are added to the
    log. *)
Theorem fine_1_epoch_trains_on_buffer
    (values xbatch : tensor) (num_batches : Z) (s : State) :
  calls (epoch_work (Fine_1 values num_batches xbatch) s) =
    calls s ++
    C_reset_loss (model_Autoencoder (self s)) ::
    concat (repeat [C_next_batch [values] [xbatch];
                    C_train_batch (model_Autoencoder (self s)) [xbatch] [xbatch]]
              (Z.to_nat num_batches)) /\
  length (filter is_train_batch
            (calls (epoch_work (Fine_1 values num_batches xbatch) s))) =
    (length (filter is_train_batch (calls s)) + Z.to_nat (Z.max 0 num_batches))%nat.
Proof.
  split.
  - apply fine_1_epoch_calls.
  - rewrite fine_1_train_batch_count. f_equal. lia.
Qed.

End MoreTransforms.

(** * Further runs on the small libraries *)

(** Budget 5, three epochs in: still running. *)
Lemma train_loop_runs_while_unmet_witness :
  train_loop (L := Toy.eddl) 3 (Coarse Toy.values)
    (Toy.built (Toy.ae (inl (PyInt 5)) 2 1)) =
  Timeout (after_epochs (Coarse Toy.values) 3
             (Toy.built (Toy.ae (inl (PyInt 5)) 2 1))).
Proof.
  refine (train_loop_runs_while_unmet (L := Toy.eddl) (Coarse Toy.values) 3 _ _ _).
  - intros j Hj. destruct j as [|[|[|j]]]; [vm_compute; discriminate ..|lia].
  - intros j Hj. destruct j as [|[|[|j]]]; [vm_compute; reflexivity ..|lia].
Defined.

(** Entries 0, 3, 7 and a string: three epochs. *)
Lemma train_loop_int_only_runs_least_entry_witness :
  train_loop (L := Toy.eddl) 5 (Coarse Toy.values)
    (Toy.built (Toy.ae (inr [PyInt 0; PyInt 7; PyStr "x"; PyInt 3]) 2 1)) =
  Val {| n_epoch := 4; flag := false |}
    (after_epochs (Coarse Toy.values) 3
       (Toy.built (Toy.ae (inr [PyInt 0; PyInt 7; PyStr "x"; PyInt 3]) 2 1))).
Proof.
  refine (train_loop_int_only_runs_least_entry (L := Toy.eddl) (Coarse Toy.values)
            (Toy.built (Toy.ae (inr [PyInt 0; PyInt 7; PyStr "x"; PyInt 3]) 2 1))
            3 5 _ _ _ _ _).
  - vm_compute. reflexivity.
  - vm_compute. right. right. left. reflexivity.
  - lia.
  - intros j Hj Hpos. vm_compute in Hj.
    destruct Hj as [<- | [<- | [<- | []]]]; lia.
  - vm_compute. lia.
Defined.

(** A tolerance of 0.5 and a diverged training. *)
Lemma train_loop_nan_never_ends_witness :
  train_loop (L := Odd.diverged) 4 (Coarse Toy.values)
    (Odd.start Odd.diverged (Toy.mkToy 0 0) (Toy.ae (inl (PyFloat 0.5)) 2 1)) =
  Timeout (after_epochs (Coarse Toy.values) 4
             (Odd.start Odd.diverged (Toy.mkToy 0 0) (Toy.ae (inl (PyFloat 0.5)) 2 1))).
Proof.
  refine (train_loop_nan_never_ends (L := Odd.diverged) (Coarse Toy.values) 4 _ _ _).
  - reflexivity.
  - intros j Hj. exists []. reflexivity.
Defined.

(** A budget of 1 that is met, a tolerance, and no loss reported. *)
Lemma train_loop_raises_without_loss_witness :
  train_loop (L := Odd.silent) 3 (Coarse Toy.values)
    (Odd.start Odd.silent (Toy.mkToy 0 0) (Toy.ae (inr [PyInt 1; PyFloat 0.5]) 2 1)) =
  Exc IndexError
    (record_epoch (Coarse Toy.values)
       (Odd.start Odd.silent (Toy.mkToy 0 0) (Toy.ae (inr [PyInt 1; PyFloat 0.5]) 2 1))).
Proof.
  refine (proj1 (train_loop_raises_without_loss (L := Odd.silent)
                   (Coarse Toy.values) 2 _ _ _)); reflexivity.
Defined.

Lemma scan_stop_order_irrelevant_witness :
  scan_stop 3 [0.25%float] [PyInt 3; PyFloat 0.5] true =
  scan_stop 3 [0.25%float] [PyFloat 0.5; PyInt 3] true.
Proof.
  refine (scan_stop_order_irrelevant 3 [0.25%float] _ _ true _).
  apply perm_swap.
Defined.

Lemma build_model_returns_witness :
  exists e dec dec2,
    _build_model (L := Toy.eddl) Toy.values (Toy.start Toy.ae_lists) =
    Val tt (models_built 6 e dec dec2 (Toy.start Toy.ae_lists)).
Proof.
  refine (build_model_returns (L := Toy.eddl) Toy.values (Toy.start Toy.ae_lists) 6 _ _ _).
  - reflexivity.
  - right. vm_compute. lia.
  - right. vm_compute. lia.
Defined.

(** [AE_EDDL([2], [2, 4, 8], Tanh, ReLu, 1, 2)]: one encoder
    activation, three decoder widths. *)
Lemma build_model_raises_witness :
  exists s',
    _build_model (L := Toy.eddl) Toy.values
      (Toy.start (__init__ [2] [2; 4; 8] (inl Tanh) (inl ReLu) (inl (PyInt 1)) 2
                    None None "adam" 0.5%float "CS_CPU" 1)) = Exc IndexError s' /\
    decoder (self s') = None /\
    decoder2 (self s') = None /\
    model_Autoencoder (self s') = None /\
    model_Decoder (self s') = None.
Proof.
  refine (build_model_raises (L := Toy.eddl) Toy.values
            (Toy.start (__init__ [2] [2; 4; 8] (inl Tanh) (inl ReLu) (inl (PyInt 1)) 2
                          None None "adam" 0.5%float "CS_CPU" 1)) 6 _ _).
  - reflexivity.
  - right. vm_compute. lia.
Defined.

Lemma build_model_graphs_witness :
  exists d e dec dec2 pe pd pd2,
    py_index (tshape Toy.values) 1 = inr d /\
    Toy.built Toy.ae_lists =
      models_built d e dec dec2
        (final (Tensor_fromarray (np_T (Toy.snapshots 6 4)) (Toy.start Toy.ae_lists))) /\
    encoder (self (Toy.built Toy.ae_lists)) = Some e /\
    decoder (self (Toy.built Toy.ae_lists)) = Some dec /\
    decoder2 (self (Toy.built Toy.ae_lists)) = Some dec2 /\
    model_Autoencoder (self (Toy.built Toy.ae_lists)) =
      Some (Model [Input 1 [d]] [dec]) /\
    model_Decoder (self (Toy.built Toy.ae_lists)) = Some (Model [Input 2 [2]] [dec2]) /\
    e = Dense pe 2 /\ dec = Dense pd d /\ dec2 = Dense pd2 d.
Proof.
  refine (build_model_graphs (L := Toy.eddl) Toy.values
            (final (Tensor_fromarray (np_T (Toy.snapshots 6 4)) (Toy.start Toy.ae_lists)))
            (Toy.built Toy.ae_lists) _).
  vm_compute. reflexivity.
Defined.

Lemma build_model_layer_counts_witness :
  model_layers (model_Decoder (self (Toy.built Toy.ae_lists))) = 4%nat /\
  model_layers (model_Autoencoder (self (Toy.built Toy.ae_lists))) = 7%nat.
Proof.
  refine (build_model_layer_counts (L := Toy.eddl) Toy.values
            (final (Tensor_fromarray (np_T (Toy.snapshots 6 4)) (Toy.start Toy.ae_lists)))
            (Toy.built Toy.ae_lists) _ _ _).
  - vm_compute. reflexivity.
  - vm_compute. lia.
  - vm_compute. lia.
Defined.

Lemma init_single_activation_builds_iff_witness :
  function_encoder (self (Toy.start (Toy.ae (inl (PyInt 1)) 2 1))) = repeat Tanh 2 /\
  ((exists s', _build_model (L := Toy.eddl) Toy.values
                 (Toy.start (Toy.ae (inl (PyInt 1)) 2 1)) = Val tt s') <->
   (2 <= 1 \/ 2 <= 2)%nat).
Proof.
  refine (init_single_activation_builds_iff (L := Toy.eddl) [4; 2] [2; 4] Tanh (inl ReLu)
            (inl (PyInt 1)) 2 None None "adam" _ "CS_CPU" 1 Toy.values 6
            (Toy.start (Toy.ae (inl (PyInt 1)) 2 1)) _ _); reflexivity.
Defined.

Lemma fit_zero_batch_size_raises_witness :
  fit (L := Toy.eddl) 3 (Toy.snapshots 6 4) (Toy.start (Toy.ae (inl (PyInt 1)) 0 2)) =
  Exc ZeroDivisionError (Toy.built (Toy.ae (inl (PyInt 1)) 0 2)).
Proof.
  refine (fit_zero_batch_size_raises (L := Toy.eddl) 3 (Toy.snapshots 6 4)
            (Toy.start (Toy.ae (inl (PyInt 1)) 0 2))
            (Toy.built (Toy.ae (inl (PyInt 1)) 0 2)) _ _ _).
  - vm_compute. reflexivity.
  - left. reflexivity.
  - reflexivity.
Defined.

Lemma fit_other_training_type_witness :
  finished (fit (L := Toy.eddl) 0 (Toy.snapshots 6 4)
              (Toy.start (Toy.ae (inr []) 2 0))) = true.
Proof.
  refine (proj1 (proj2 (fit_other_training_type (L := Toy.eddl) 0 (Toy.snapshots 6 4)
                          (Toy.start (Toy.ae (inr []) 2 0))
                          (Toy.built (Toy.ae (inr []) 2 0)) _ _ _ _))).
  - vm_compute. reflexivity.
  - vm_compute. discriminate.
  - vm_compute. discriminate.
  - vm_compute. discriminate.
Defined.

Lemma fit_returns_with_models_witness :
  exists before ps,
    calls (Toy.trained 6) =
    before ++ [C_set_parameters (model_Decoder (self (Toy.trained 6))) ([] :: ps)].
Proof.
  refine (proj2 (fit_returns_with_models (L := Toy.eddl) 3 (Toy.snapshots 6 4)
                   (Toy.start (Toy.ae (inl (PyInt 1)) 2 1)) (Toy.trained 6) _)).
  vm_compute. reflexivity.
Defined.


Lemma copy_parameters_drops_first_group_witness :
  copy_parameters (L := Toy.eddl) (Toy.built Toy.ae_empty) =
  Val tt (with_call
            (C_set_parameters (model_Decoder (self (Toy.built Toy.ae_empty)))
               [[]; [mkTensor 0 [6]]; [mkTensor 0 [6]]])
            (Toy.built Toy.ae_empty)).
Proof.
  refine (copy_parameters_drops_first_group (L := Toy.eddl) (Toy.built Toy.ae_empty) _).
  reflexivity.
Defined.

(** Two encoder widths and two decoder widths: the four installed
    entries fit the four layers of the decoder model. *)
Lemma transfer_fits_decoder_iff_witness :
  exists ps,
    copy_parameters (L := Toy.eddl) (Toy.built (Toy.ae (inl (PyInt 1)) 2 1)) =
      Val tt (with_call
                (C_set_parameters
                   (model_Decoder (self (Toy.built (Toy.ae (inl (PyInt 1)) 2 1)))) ps)
                (Toy.built (Toy.ae (inl (PyInt 1)) 2 1))) /\
    length ps = 4%nat /\
    model_layers (model_Decoder (self (Toy.built (Toy.ae (inl (PyInt 1)) 2 1)))) = 4%nat /\
    (length ps = model_layers (model_Decoder (self (Toy.built (Toy.ae (inl (PyInt 1)) 2 1))))
     <-> 2%nat = 2%nat).
Proof.
  refine (transfer_fits_decoder_iff (L := Toy.eddl) Toy.values
            (final (Tensor_fromarray (np_T (Toy.snapshots 6 4))
                      (Toy.start (Toy.ae (inl (PyInt 1)) 2 1))))
            (Toy.built (Toy.ae (inl (PyInt 1)) 2 1))
            (Toy.built (Toy.ae (inl (PyInt 1)) 2 1)) _ _ _ _ _).
  - vm_compute. reflexivity.
  - reflexivity.
  - vm_compute. lia.
  - vm_compute. lia.
  - vm_compute. reflexivity.
Defined.

Lemma transform_returns_encoder_output_witness :
  transform (L := Toy.eddl) (Toy.snapshots 6 3) None (Toy.trained 6) =
  Val (Arr2 3 2 (repeat (repeat 0.5%float 2) 3), None)
    (predicted (Toy.snapshots 6 3) (Toy.trained 6)).
Proof.
  refine (transform_returns_encoder_output (L := Toy.eddl) (Toy.snapshots 6 3) None
            (Toy.trained 6) _).
  vm_compute. reflexivity.
Defined.

Lemma inverse_transform_returns_decoder_output_witness :
  inverse_transform (L := Toy.eddl) (Toy.snapshots 2 3) None (Toy.trained 6) =
  Val (Arr2 3 6 (repeat (repeat 0.5%float 6) 3))
    (forwarded (Toy.snapshots 2 3) (Toy.trained 6)).
Proof.
  refine (inverse_transform_returns_decoder_output (L := Toy.eddl) (Toy.snapshots 2 3)
            (Toy.trained 6) _ _); vm_compute; reflexivity.
Defined.

Lemma inverse_transform_single_sample_witness :
  inverse_transform (L := Toy.eddl) (Toy.snapshots 2 1) None (Toy.trained 6) =
  Val (Arr1 (repeat 0.5%float 6)) (forwarded (Toy.snapshots 2 1) (Toy.trained 6)).
Proof.
  refine (inverse_transform_single_sample (L := Toy.eddl) (Toy.snapshots 2 1)
            (Toy.trained 6) (repeat 0.5%float 6) _).
  vm_compute. reflexivity.
Defined.
